(** * FullyConnectedOracle: a shallow embedding

    Source: design_bench/oracles/tensorflow/fully_connected_oracle.py

    The class is an adapter between the benchmark's dataset and oracle base
    classes and three third-party libraries (Keras, NumPy, SciPy).  The
    embedding follows the methods statement by statement:

    - Python objects that are only passed around (a Keras network, a design,
      a float) are abstract types of the [Library] interface; what the
      libraries compute on them are operations of that interface, each able
      to raise;
    - the objects the methods act on (the oracle [self], the temporary files
      on disk, the zip archive) form the [World] that a small state and
      exception monad threads through the code;
    - Python integers are [Z]; the one float computation written in the
      source, [int(math.ceil(size / batch))], is modelled with the correctly
      rounded binary64 quotient of two integers;
    - learning rates are real numbers, so the cosine schedule is the formula
      of its definition, without the rounding of float32 arithmetic. *)

From Stdlib Require Import ZArith Reals Lia Lra String List.
From Stdlib.Strings Require Import Byte.
From stdpp Require Import gmap strings list fin_maps.

Local Open Scope Z_scope.

(** ** Exceptions and outcomes *)

Inductive Exn : Type :=
| AttributeError
| KeyError
| TypeError
| IndexError
| ZeroDivisionError
| OverflowError
| OSError
| ValueError.

Inductive Outcome (A : Type) : Type :=
| Ok (a : A)
| Raise (e : Exn).

Arguments Ok {A} a.
Arguments Raise {A} e.

Definition outcome_bind {A B} (o : Outcome A) (k : A -> Outcome B) : Outcome B :=
  match o with
  | Ok a => k a
  | Raise e => Raise e
  end.

Definition is_Ok {A} (o : Outcome A) : Prop :=
  match o with Ok _ => True | Raise _ => False end.

(** ** Python numbers

    [a / b] on two [int]s is true division: the exact quotient rounded to
    the nearest binary64 value, ties to even; [ZeroDivisionError] for a zero
    divisor and [OverflowError] when the rounded quotient is not finite.
    A finite binary64 value is kept as [mant * 2 ^ expo]. *)

Module PyNum.

Record float : Type := { mant : Z; expo : Z }.

(** [floor (log2 (a / b))] for positive [a] and [b]. *)
Definition quotient_exponent (a b : Z) : Z :=
  let k := Z.log2 b + 1 in
  Z.log2 (a * 2 ^ k / b) - k.

(** The integer nearest to [n / d], ties to even ([0 <= n], [0 < d]). *)
Definition round_half_even (n d : Z) : Z :=
  let q := n / d in
  let r := n mod d in
  if 2 * r <? d then q
  else if d <? 2 * r then q + 1
  else if Z.even q then q else q + 1.

Definition int_true_divide (a b : Z) : Outcome float :=
  if b =? 0 then Raise ZeroDivisionError
  else if a =? 0 then Ok {| mant := 0; expo := 0 |}
  else
    let a' := Z.abs a in
    let b' := Z.abs b in
    (* 53 significant bits; the exponent of a subnormal stays at -1074 *)
    let e := Z.max (quotient_exponent a' b' - 52) (-1074) in
    let m := round_half_even (a' * 2 ^ Z.max 0 (- e)) (b' * 2 ^ Z.max 0 e) in
    if (0 <=? e) && (2 ^ 1024 <=? m * 2 ^ e) then Raise OverflowError
    else Ok {| mant := Z.sgn a * Z.sgn b * m; expo := e |}.

(** [math.ceil] of a finite float, as a Python [int]. *)
Definition math_ceil (x : float) : Z :=
  if 0 <=? expo x then mant x * 2 ^ expo x
  else - ((- mant x) / 2 ^ (- expo x)).

(** The ceiling of the exact quotient, for comparison. *)
Definition exact_ceiling (a b : Z) : Z := - ((- a) / b).

End PyNum.

(** ** The training set-up computed by [fit] (source lines 241-249) *)

Inductive Schedule : Type :=
| CosineDecay (initial_learning_rate : R) (decay_steps : Z) (alpha : R).

Inductive Optimizer : Type :=
| Adam (learning_rate : Schedule).

Record Compile : Type := { optimizer : Optimizer; loss : string }.

(** [steps = int(math.ceil(training.dataset_size / self.internal_batch_size))] *)
Definition fit_steps (dataset_size internal_batch_size : Z) : Outcome Z :=
  outcome_bind (PyNum.int_true_divide dataset_size internal_batch_size)
    (fun q => Ok (PyNum.math_ceil q)).

(** [lr = CosineDecay(learning_rate, steps * epochs, alpha=0.0)],
    [optimizer = Adam(learning_rate=lr)],
    [model.compile(optimizer=optimizer, loss='mse')] *)
Definition fit_compile (learning_rate : R) (steps epochs : Z) : Compile :=
  let lr := CosineDecay learning_rate (steps * epochs) 0%R in
  {| optimizer := Adam lr; loss := "mse" |}.

(** The learning rate a Keras [CosineDecay] schedule yields at a step:
    [initial * ((1 - alpha) * 0.5 * (1 + cos (pi * min(step, decay_steps)
    / decay_steps)) + alpha)].  With [decay_steps = 0] the fraction is
    [0 / 0], not a number: there is no rate. *)
Definition decayed_learning_rate (s : Schedule) (step : Z) : option R :=
  match s with
  | CosineDecay initial decay_steps alpha =>
      if decay_steps =? 0 then None
      else
        let completed := (IZR (Z.min step decay_steps) / IZR decay_steps)%R in
        let cosine_decayed := (/ 2 * (1 + cos (PI * completed)))%R in
        Some (initial * ((1 - alpha) * cosine_decayed + alpha))%R
  end.

Definition schedule_of (c : Compile) : Schedule :=
  match optimizer c with Adam s => s end.

Definition horizon_of (s : Schedule) : Z :=
  match s with CosineDecay _ decay_steps _ => decay_steps end.

(** ** The architecture built by [fit] (source lines 215-239) *)

Inductive Layer : Type :=
| Embedding (input_dim output_dim : Z)
| Flatten
| Dense (units : Z) (activation : option string)
| LayerNormalization
| Activation (activation : string).

(** [keras.Input(shape=...)] followed by the layers applied to it, in order. *)
Record Architecture : Type := { Input_shape : list Z; layers : list Layer }.

(** ** Collaborators outside this file

    [Library] gathers the third-party objects and calls of the source:
    NumPy ([ndarray.dumps], [np.loads]), SciPy ([stats.spearmanr], its
    correlation component), Keras ([keras.Model], [Model.fit],
    [Model.save] to an h5 image, [keras.models.load_model]) and the size of
    the write buffer of a file object opened by [tempfile]. *)

Class Library : Type := {
  Scalar : Type;
  Design : Type;
  Network : Type;
  TFDataset : Type;
  PyObject : Type;
  dumps : Scalar -> list byte;
  np_loads : list byte -> Outcome Scalar;
  spearmanr : list Scalar -> list Scalar -> Outcome Scalar;
  keras_Model : Architecture -> Outcome Network;
  Model_fit :
    Network -> Compile -> TFDataset -> Z -> Z ->
    list Design * list (list Scalar) -> Outcome Network;
  (** the network applied to one design; [fit] gives every network a
      [Dense(1)] head, so the output for a design is one scalar *)
  forward : Network -> Design -> Outcome Scalar;
  Model_save : Network -> Outcome (list byte);
  load_model : list byte -> Outcome Network;
  buffer_size : nat
}.

(** [Model.predict]: the network applied to every design of the batch, in
    order; the result has shape (batch, 1). *)
Fixpoint Model_predict `{Library} (net : Network) (batch : list Design)
  : Outcome (list (list Scalar)) :=
  match batch with
  | [] => Ok []
  | d :: rest =>
      outcome_bind (forward net d) (fun s =>
      outcome_bind (Model_predict net rest) (fun rows => Ok ([s] :: rows)))
  end.

(** [a[:, 0]] on a two-dimensional array given by its rows. *)
Fixpoint column0 {A} (rows : list (list A)) : Outcome (list A) :=
  match rows with
  | [] => Ok []
  | [] :: _ => Raise IndexError
  | (a :: _) :: rest => outcome_bind (column0 rest) (fun col => Ok (a :: col))
  end.

(** What a model dictionary holds under a key. *)
Inductive Value `{Library} : Type :=
| VModel (net : Network)
| VScalar (s : Scalar).

(** [isinstance(d, DiscreteDataset)] and the attributes only a discrete
    dataset has. *)
Inductive DatasetClass : Type :=
| Continuous
| Discrete (num_classes : Z) (is_logits : bool).

Record Dataset `{Library} : Type := {
  dataset_class : DatasetClass;
  x : list Design;
  y : list (list Scalar);
  input_shape : list Z;
  dataset_size : Z
}.

Definition is_DiscreteDataset `{Library} (d : Dataset) : bool :=
  match dataset_class d with Discrete _ _ => true | Continuous => false end.

(** Modelled from the spec: the state of an oracle, which the base class
    [TensorflowOracle] (not in this file) declares.  The public attributes
    are those of the class docstring (lines 19-53); [model] is the
    dictionary [fit] or [load_model_from_zip] returned, absent until one of
    them has succeeded (spec, data model: "model is absent until fit
    succeeds"). *)
Record Oracle `{Library} : Type := {
  dataset : Dataset;
  noise_std : Scalar;
  is_batched : bool;
  internal_batch_size : Z;
  internal_measurements : Z;
  expect_normalized_y : bool;
  expect_normalized_x : bool;
  expect_logits : option bool;
  model : option (gmap string Value)
}.

(** [Base] gathers the methods of the dataset and of the oracle base class
    that [fit] calls. *)
Class Base `{Library} : Type := {
  split : Dataset -> gmap string PyObject -> Outcome (Dataset * Dataset);
  dataset_to_oracle_x : Oracle -> list Design -> Outcome (list Design);
  dataset_to_oracle_y :
    Oracle -> list (list Scalar) -> Outcome (list (list Scalar));
  create_tensorflow_dataset :
    Oracle -> Dataset -> Z -> Z -> Z -> Outcome TFDataset
}.

(** ** The world the methods act on *)

(** A temporary file and the stream [tempfile] opened on it: the bytes on
    disk, the bytes written through the stream that are still in its
    buffer, and the position of the stream. *)
Record TmpFile : Type := {
  on_disk : list byte;
  pending : list byte;
  pos : nat
}.

Record World `{Library} : Type := {
  self : Oracle;
  tmp : gmap nat TmpFile;
  zip_archive : list (string * list byte)
}.

Definition set_tmp `{Library} (t : gmap nat TmpFile) (w : World) : World :=
  {| self := self w; tmp := t; zip_archive := zip_archive w |}.

Definition set_zip `{Library} (z : list (string * list byte)) (w : World) : World :=
  {| self := self w; tmp := tmp w; zip_archive := z |}.

Definition set_model `{Library} (m : gmap string Value) (w : World) : World :=
  {| self :=
       {| dataset := dataset (self w);
          noise_std := noise_std (self w);
          is_batched := is_batched (self w);
          internal_batch_size := internal_batch_size (self w);
          internal_measurements := internal_measurements (self w);
          expect_normalized_y := expect_normalized_y (self w);
          expect_normalized_x := expect_normalized_x (self w);
          expect_logits := expect_logits (self w);
          model := Some m |};
     tmp := tmp w;
     zip_archive := zip_archive w |}.

(** State and exceptions: a raise keeps the world as it was at the raise. *)
Definition M `{Library} (A : Type) : Type := World -> Outcome A * World.

Definition ret `{Library} {A} (a : A) : M A := fun w => (Ok a, w).

Definition raise `{Library} {A} (e : Exn) : M A := fun w => (Raise e, w).

Definition bind `{Library} {A B} (m : M A) (k : A -> M B) : M B :=
  fun w =>
    match m w with
    | (Ok a, w') => k a w'
    | (Raise e, w') => (Raise e, w')
    end.

Definition lift `{Library} {A} (o : Outcome A) : M A := fun w => (o, w).

Definition get `{Library} : M World := fun w => (Ok w, w).

Definition put `{Library} (w' : World) : M unit := fun _ => (Ok tt, w').

Declare Scope py_scope.
Delimit Scope py_scope with py.

Notation "v <- m ;; k" := (bind m (fun v => k))
  (at level 100, m at next level, right associativity) : py_scope.
Notation "m ;;; k" := (bind m (fun _ => k))
  (at level 100, right associativity) : py_scope.

Local Open Scope py_scope.

(** *** Dictionaries and attributes *)

(** [d[key]] *)
Definition getitem `{Library} {V} (d : gmap string V) (key : string) : M V :=
  match d !! key with
  | Some v => ret v
  | None => raise KeyError
  end.

(** [self.model]: the attribute exists once a model was fitted or loaded. *)
Definition self_model `{Library} : M (gmap string Value) :=
  w <- get ;;
  match model (self w) with
  | Some m => ret m
  | None => raise AttributeError
  end.

(** The value is a Keras network (it has [save] and [predict]). *)
Definition as_Network `{Library} (v : Value) : M Network :=
  match v with
  | VModel net => ret net
  | VScalar _ => raise AttributeError
  end.

(** [v.dumps()]: a NumPy scalar has the method, a network has not. *)
Definition Value_dumps `{Library} (v : Value) : M (list byte) :=
  match v with
  | VScalar s => ret (dumps s)
  | VModel _ => raise AttributeError
  end.

(** *** Temporary files *)

Definition new_file : TmpFile := {| on_disk := []; pending := []; pos := 0%nat |}.

(** [file.write(data)] on the buffered stream.  Data that fits in the free
    part of the buffer stays there; otherwise the buffer is flushed and data
    longer than the buffer goes to disk at once, shorter data into the
    emptied buffer. *)
Definition stream_write (size : nat) (data : list byte) (f : TmpFile) : TmpFile :=
  if (length data <=? size - length (pending f))%nat then
    {| on_disk := on_disk f;
       pending := pending f ++ data;
       pos := (pos f + length data)%nat |}
  else if (size <? length data)%nat then
    {| on_disk := on_disk f ++ pending f ++ data;
       pending := [];
       pos := (pos f + length data)%nat |}
  else
    {| on_disk := on_disk f ++ pending f;
       pending := data;
       pos := (pos f + length data)%nat |}.

(** [file.read()]: the buffer is flushed and the stream is read from its
    position to the end of the file. *)
Definition stream_read (f : TmpFile) : list byte * TmpFile :=
  let content := on_disk f ++ pending f in
  (drop (pos f) content,
   {| on_disk := content; pending := []; pos := length content |}).

Definition with_file `{Library} {A} (name : nat) (k : TmpFile -> M A) : M A :=
  w <- get ;;
  match tmp w !! name with
  | Some f => k f
  | None => raise OSError
  end.

Definition update_file `{Library} (name : nat) (f : TmpFile) : M unit :=
  w <- get ;; put (set_tmp (<[name := f]> (tmp w)) w).

Definition file_write `{Library} (name : nat) (data : list byte) : M unit :=
  with_file name (fun f => update_file name (stream_write buffer_size data f)).

Definition file_read `{Library} (name : nat) : M (list byte) :=
  with_file name (fun f =>
    let '(data, f') := stream_read f in
    update_file name f' ;;; ret data).

(** [net.save(file.name, save_format='h5')]: the h5 image replaces what the
    path holds on disk; the stream opened on the file is not involved. *)
Definition save_h5 `{Library} (net : Network) (name : nat) : M unit :=
  image <- lift (Model_save net) ;;
  with_file name (fun f =>
    update_file name
      {| on_disk := image; pending := pending f; pos := pos f |}).

(** [keras.models.load_model(file.name)]: reads what the path holds on disk. *)
Definition load_model_path `{Library} (name : nat) : M Network :=
  with_file name (fun f => lift (load_model (on_disk f))).

(** [with tempfile.NamedTemporaryFile() as file: body]: a file under an
    unused name is created, the body runs, and the file is closed and
    deleted however the body ends. *)
Definition NamedTemporaryFile `{Library} {A} (body : nat -> M A) : M A :=
  fun w =>
    let name := fresh (dom (tmp w)) in
    let '(r, w') := body name (set_tmp (<[name := new_file]> (tmp w)) w) in
    (r, set_tmp (delete name (tmp w')) w').

(** *** The zip archive *)

(** [with zip_archive.open(name, "w") as file: file.write(data)]: the entry
    is added when the handle is closed, also when computing [data] raised
    (it is then empty). *)
Definition zip_write `{Library} (name : string) (data : M (list byte)) : M unit :=
  fun w =>
    match data w with
    | (Ok bytes, w') =>
        (Ok tt, set_zip (zip_archive w' ++ [(name, bytes)]) w')
    | (Raise e, w') =>
        (Raise e, set_zip (zip_archive w' ++ [(name, [])]) w')
    end.

(** The entry a name refers to is the last one written under it. *)
Fixpoint zip_lookup (name : string) (entries : list (string * list byte))
  : option (list byte) :=
  match entries with
  | [] => None
  | (n, bytes) :: rest =>
      match zip_lookup name rest with
      | Some later => Some later
      | None => if String.eqb n name then Some bytes else None
      end
  end.

(** [with zip_archive.open(name, "r") as file: file.read()] *)
Definition zip_read `{Library} (name : string) : M (list byte) :=
  w <- get ;;
  match zip_lookup name (zip_archive w) with
  | Some bytes => ret bytes
  | None => raise KeyError
  end.

(** ** The methods of [FullyConnectedOracle] *)

(** The keywords [__init__] hands to the constructor of the base class. *)
Record SuperInit `{Library} : Type := {
  kw_noise_std : Scalar;
  kw_is_batched : bool;
  kw_internal_batch_size : Z;
  kw_internal_measurements : Z;
  kw_expect_normalized_y : bool;
  kw_expect_normalized_x : bool;
  kw_expect_logits : option bool;
  kw_rest : gmap string PyObject
}.

(** The keywords [__init__] writes out itself; [**kwargs] naming one of
    them again is a [TypeError] of the call. *)
Definition explicit_keywords : list string :=
  ["noise_std"; "is_batched"; "internal_batch_size"; "internal_measurements";
   "expect_normalized_y"; "expect_normalized_x"; "expect_logits"]%string.

Definition repeats_keyword `{Library} (kwargs : gmap string PyObject) : bool :=
  existsb (fun k => bool_decide (is_Some (kwargs !! k))) explicit_keywords.

(** [__init__(self, dataset, noise_std=0.0, batch_size=32, **kwargs)]
    (lines 76-101): the call [super().__init__(dataset, ...)] it makes. *)
Definition __init__ `{Library} (dataset : Dataset) (noise_std : Scalar)
    (batch_size : Z) (kwargs : gmap string PyObject) : Outcome SuperInit :=
  if repeats_keyword kwargs then Raise TypeError
  else
    Ok {| kw_noise_std := noise_std;
          kw_is_batched := true;
          kw_internal_batch_size := batch_size;
          kw_internal_measurements := 1;
          kw_expect_normalized_y := true;
          kw_expect_normalized_x := negb (is_DiscreteDataset dataset);
          kw_expect_logits :=
            if is_DiscreteDataset dataset then Some false else None;
          kw_rest := kwargs |}.

(** [check_input_format(cls, dataset)] (lines 103-124); the argument is any
    object. *)
Definition check_input_format {T : Type} (dataset : T) : bool := true.

Definition fully_connected_h5 : string := "fully_connected.h5".
Definition rank_correlation_npy : string := "rank_correlation.npy".
Definition key_model : string := "model".
Definition key_rank_correlation : string := "rank_correlation".

(** [dict(model=net, rank_correlation=rc)] *)
Definition model_dict `{Library} (net : Network) (rc : Scalar)
  : gmap string Value :=
  <[key_model := VModel net]> (<[key_rank_correlation := VScalar rc]> ∅).

(** [save_model_to_zip(self, model, zip_archive)] (lines 126-154) *)
Definition save_model_to_zip `{Library} (model : gmap string Value) : M unit :=
  model_bytes <- NamedTemporaryFile (fun file =>
    v <- getitem model key_model ;;
    net <- as_Network v ;;
    save_h5 net file ;;;
    file_read file) ;;
  zip_write fully_connected_h5 (ret model_bytes) ;;;
  zip_write rank_correlation_npy
    (v <- getitem model key_rank_correlation ;; Value_dumps v).

(** [load_model_from_zip(self, zip_archive)] (lines 156-187) *)
Definition load_model_from_zip `{Library} : M (gmap string Value) :=
  raw <- zip_read rank_correlation_npy ;;
  rank_correlation <- lift (np_loads raw) ;;
  model_bytes <- zip_read fully_connected_h5 ;;
  NamedTemporaryFile (fun file =>
    file_write file model_bytes ;;;
    net <- load_model_path file ;;
    ret (model_dict net rank_correlation)).

(** [input_shape] after lines 216-218: [input_shape[:-1]] for a discrete
    dataset of logits. *)
Definition fit_input_shape `{Library} (training : Dataset) : list Z :=
  match dataset_class training with
  | Discrete _ true => removelast (input_shape training)
  | _ => input_shape training
  end.

(** One pass of the loop of lines 231-234. *)
Definition hidden_block (hidden_size : Z) (activation : string) : list Layer :=
  [Dense hidden_size None; LayerNormalization; Activation activation].

(** Lines 220-239: input layer, optional embedding, flatten, [num_layers]
    hidden blocks, and the one-unit output layer. *)
Definition fit_architecture `{Library} (training : Dataset)
    (hidden_size : Z) (activation : string) (num_layers : Z) : Architecture :=
  {| Input_shape := fit_input_shape training;
     layers :=
       match dataset_class training with
       | Discrete num_classes _ => [Embedding num_classes hidden_size]
       | Continuous => []
       end
       ++ [Flatten]
       ++ concat (replicate (Z.to_nat num_layers)
                    (hidden_block hidden_size activation))
       ++ [Dense 1 None] |}.

(** [fit(self, dataset, hidden_size=512, activation='relu', num_layers=2,
    epochs=5, shuffle_buffer=5000, learning_rate=0.001, **kwargs)]
    (lines 189-264) *)
Definition fit `{Base} (dataset : Dataset) (hidden_size : Z)
    (activation : string) (num_layers epochs shuffle_buffer : Z)
    (learning_rate : R) (kwargs : gmap string PyObject)
  : M (gmap string Value) :=
  parts <- lift (split dataset kwargs) ;;
  let '(training, validation) := parts in
  w <- get ;;
  validation_x <- lift (dataset_to_oracle_x (self w) (x validation)) ;;
  validation_y <- lift (dataset_to_oracle_y (self w) (y validation)) ;;
  net <- lift (keras_Model
                 (fit_architecture training hidden_size activation num_layers)) ;;
  steps <- lift (fit_steps (dataset_size training)
                   (internal_batch_size (self w))) ;;
  let compiled := fit_compile learning_rate steps epochs in
  data <- lift (create_tensorflow_dataset (self w) training
                  (internal_batch_size (self w)) shuffle_buffer epochs) ;;
  net <- lift (Model_fit net compiled data steps epochs
                 (validation_x, validation_y)) ;;
  predictions <- lift (Model_predict net validation_x) ;;
  predicted <- lift (column0 predictions) ;;
  measured <- lift (column0 validation_y) ;;
  rank_correlation <- lift (spearmanr predicted measured) ;;
  ret (model_dict net rank_correlation).

(** [protected_predict(self, x)] (lines 266-288):
    [self.model["model"].predict(x)] *)
Definition protected_predict `{Library} (batch : list Design)
  : M (list (list Scalar)) :=
  m <- self_model ;;
  v <- getitem m key_model ;;
  net <- as_Network v ;;
  lift (Model_predict net batch).

(** ** A small instance of the collaborators

    Enough of a library to run the methods: a network is a slope, a design
    and a scalar are integers, an h5 image is the HDF5 signature followed
    by the slope, and a pickled scalar is one byte. *)

Module Toy.

Definition byte_of_Z (z : Z) : byte :=
  match Byte.of_N (Z.to_N z) with
  | Some b => b
  | None => x00
  end.

Definition Z_of_byte (b : byte) : Z := Z.of_N (Byte.to_N b).

Definition hdf5_signature : list byte := [x89; x48; x44; x46; x0d; x0a; x1a; x0a].

Definition toy_save (slope : Z) : Outcome (list byte) :=
  if (0 <=? slope) && (slope <? 256) then Ok (hdf5_signature ++ [byte_of_Z slope])
  else Raise ValueError.

Definition toy_load (image : list byte) : Outcome Z :=
  match image with
  | [x89; x48; x44; x46; x0d; x0a; x1a; x0a; b] => Ok (Z_of_byte b)
  | _ => Raise OSError
  end.

Definition toy_loads (raw : list byte) : Outcome Z :=
  match raw with
  | [b] => Ok (Z_of_byte b)
  | _ => Raise ValueError
  end.

(** Agreement of two rankings, coarsely: 1 when the columns are equal. *)
Definition toy_spearmanr (a b : list Z) : Outcome Z :=
  if (length a =? length b)%nat then
    Ok (if bool_decide (a = b) then 1 else 0)
  else Raise ValueError.

#[local] Instance library : Library := {|
  Scalar := Z;
  Design := Z;
  Network := Z;
  TFDataset := unit;
  PyObject := unit;
  dumps := fun s => [byte_of_Z s];
  np_loads := toy_loads;
  spearmanr := toy_spearmanr;
  keras_Model := fun _ => Ok 0;
  Model_fit := fun _ _ _ _ _ _ => Ok 1;
  forward := fun slope d => Ok (slope * d);
  Model_save := toy_save;
  load_model := toy_load;
  buffer_size := 4
|}.

#[local] Instance base : Base := {|
  split := fun d _ => Ok (d, d);
  dataset_to_oracle_x := fun _ xs => Ok xs;
  dataset_to_oracle_y := fun _ ys => Ok ys;
  create_tensorflow_dataset := fun _ _ _ _ _ => Ok tt
|}.

Definition continuous : Dataset :=
  {| dataset_class := Continuous;
     x := [1; 2; 3];
     y := [[1]; [2]; [3]];
     input_shape := [1];
     dataset_size := 3 |}.

Definition discrete_logits : Dataset :=
  {| dataset_class := Discrete 4 true;
     x := [1; 2; 3];
     y := [[1]; [2]; [3]];
     input_shape := [8; 4];
     dataset_size := 3 |}.

Definition oracle (m : option (gmap string Value)) : Oracle :=
  {| dataset := continuous;
     noise_std := 0;
     is_batched := true;
     internal_batch_size := 32;
     internal_measurements := 1;
     expect_normalized_y := true;
     expect_normalized_x := true;
     expect_logits := None;
     model := m |}.

Definition world (m : option (gmap string Value)) : World :=
  {| self := oracle m; tmp := ∅; zip_archive := [] |}.

Definition fitted : gmap string Value := model_dict 3 1.

(** The same library with the buffer of Python's [io] module
    ([io.DEFAULT_BUFFER_SIZE], 8192 bytes): the nine-byte image of a
    network fits in it. *)
Definition library_wide_buffer : Library := {|
  Scalar := Z;
  Design := Z;
  Network := Z;
  TFDataset := unit;
  PyObject := unit;
  dumps := fun s => [byte_of_Z s];
  np_loads := toy_loads;
  spearmanr := toy_spearmanr;
  keras_Model := fun _ => Ok 0;
  Model_fit := fun _ _ _ _ _ _ => Ok 1;
  forward := fun slope d => Ok (slope * d);
  Model_save := toy_save;
  load_model := toy_load;
  buffer_size := 2 ^ 13
|}.

Definition fitted_wide_buffer : gmap string (@Value library_wide_buffer) :=
  @model_dict library_wide_buffer 3 1.

Definition world_wide_buffer : @World library_wide_buffer :=
  @Build_World library_wide_buffer
    (@Build_Oracle library_wide_buffer
       (@Build_Dataset library_wide_buffer Continuous
          [1; 2; 3] [[1]; [2]; [3]] [1] 3)
       0 true 32 1 true true None None)
    ∅ [].

End Toy.

(** The validation metric in the words of the specification: the Spearman
    rank correlation between the network's predictions on the validation
    designs, taken through the oracle's design transform, and the validation
    measurements, taken through the oracle's measurement transform. *)
Definition validation_rank_correlation `{Base} (o : Oracle) (net : Network)
    (validation : Dataset) : Outcome Scalar :=
  outcome_bind (dataset_to_oracle_x o (x validation)) (fun inputs =>
  outcome_bind (dataset_to_oracle_y o (y validation)) (fun targets =>
  outcome_bind (Model_predict net inputs) (fun predictions =>
  outcome_bind (column0 predictions) (fun predicted =>
  outcome_bind (column0 targets) (fun measured =>
  spearmanr predicted measured))))).

(** The network [fit] trains on a training split: the architecture of
    lines 215-239, compiled and fitted as in lines 241-256. *)
Definition trained_network `{Base} (o : Oracle) (training validation : Dataset)
    (hidden_size : Z) (activation : string)
    (num_layers epochs shuffle_buffer : Z) (learning_rate : R)
  : Outcome Network :=
  outcome_bind (dataset_to_oracle_x o (x validation)) (fun inputs =>
  outcome_bind (dataset_to_oracle_y o (y validation)) (fun targets =>
  outcome_bind (keras_Model
    (fit_architecture training hidden_size activation num_layers)) (fun net =>
  outcome_bind (fit_steps (dataset_size training) (internal_batch_size o))
    (fun steps =>
  outcome_bind (create_tensorflow_dataset o training (internal_batch_size o)
                  shuffle_buffer epochs) (fun data =>
  Model_fit net (fit_compile learning_rate steps epochs) data steps epochs
    (inputs, targets)))))).

(** The training set-up in the words of the specification: steps-per-epoch
    is the ceiling of training-set size over batch size; the loss is the
    mean squared error; the optimizer is Adam on a cosine schedule whose
    horizon is epochs times steps-per-epoch, which starts at the initial
    learning rate and is exactly zero at the horizon. *)
Definition cosine_training_setup (dataset_size internal_batch_size epochs : Z)
    (learning_rate : R) : Prop :=
  exists steps schedule,
    fit_steps dataset_size internal_batch_size = Ok steps /\
    steps = PyNum.exact_ceiling dataset_size internal_batch_size /\
    loss (fit_compile learning_rate steps epochs) = "mse"%string /\
    optimizer (fit_compile learning_rate steps epochs) = Adam schedule /\
    horizon_of schedule = epochs * steps /\
    decayed_learning_rate schedule 0 = Some learning_rate /\
    decayed_learning_rate schedule (epochs * steps) = Some 0%R.

(** Keras' shape rules for the layers [fit] uses, on the shape of one
    design (the batch axis left out): [Embedding] appends its output width,
    [Flatten] leaves one axis of the product of all, [Dense] replaces the
    last axis by its units and needs one, normalization and activation keep
    the shape. *)
Definition layer_output_shape (l : Layer) (shape : list Z) : Outcome (list Z) :=
  match l with
  | Embedding _ output_dim => Ok (shape ++ [output_dim])
  | Flatten => Ok [fold_right Z.mul 1 shape]
  | Dense units _ =>
      match shape with
      | [] => Raise ValueError
      | _ => Ok (removelast shape ++ [units])
      end
  | LayerNormalization => Ok shape
  | Activation _ => Ok shape
  end.

Fixpoint output_shape (ls : list Layer) (shape : list Z) : Outcome (list Z) :=
  match ls with
  | [] => Ok shape
  | l :: rest =>
      outcome_bind (layer_output_shape l shape) (output_shape rest)
  end.

Definition is_Dense (l : Layer) : bool :=
  match l with Dense _ _ => true | _ => false end.

Definition is_Embedding (l : Layer) : bool :=
  match l with Embedding _ _ => true | _ => false end.

Definition is_Flatten (l : Layer) : bool :=
  match l with Flatten => true | _ => false end.

(** * Properties *)

(** ** The monad *)

Ltac unfold_py :=
  unfold getitem, self_model, as_Network, Value_dumps in *;
  unfold bind, lift, ret, raise, get, put in *;
  cbv beta iota in *.

Ltac case_outcome :=
  match goal with
  | |- context [match ?o with Ok _ => _ | Raise _ => _ end] =>
      destruct o eqn:?
  | H : context [match ?o with Ok _ => _ | Raise _ => _ end] |- _ =>
      destruct o eqn:?
  end.

Section Methods.

Context `{B : Base}.

Lemma bind_ret {A C} (a : A) (k : A -> M C) (w : World) :
  bind (ret a) k w = k a w.
Proof. reflexivity. Qed.

Lemma bind_lift_Ok {A C} (o : Outcome A) (a : A) (k : A -> M C) (w : World) :
  o = Ok a -> bind (lift o) k w = k a w.
Proof. intros ->. reflexivity. Qed.

Lemma bind_lift_Raise {A C} (o : Outcome A) (e : Exn) (k : A -> M C) (w : World) :
  o = Raise e -> bind (lift o) k w = (Raise e, w).
Proof. intros ->. reflexivity. Qed.

Lemma dom_model_dict (net : Network) (rc : Scalar) :
  dom (model_dict net rc) = ({[key_model; key_rank_correlation]} : gset string).
Proof.
  unfold model_dict. rewrite !dom_insert_L, dom_empty_L. set_solver.
Qed.

Lemma model_dict_model (net : Network) (rc : Scalar) :
  model_dict net rc !! key_model = Some (VModel net).
Proof. unfold model_dict. apply lookup_insert_eq. Qed.

Lemma model_dict_rank_correlation (net : Network) (rc : Scalar) :
  model_dict net rc !! key_rank_correlation = Some (VScalar rc).
Proof.
  unfold model_dict. rewrite lookup_insert_ne by discriminate.
  apply lookup_insert_eq.
Qed.

(** ** [Model.predict] and column selection *)

Lemma Model_predict_length (net : Network) (batch : list Design) rows :
  Model_predict net batch = Ok rows -> length rows = length batch.
Proof.
  revert rows. induction batch as [|d rest IH]; intros rows Hrows; simpl in *.
  - injection Hrows as <-. reflexivity.
  - destruct (forward net d) as [s|e]; simpl in Hrows; [|discriminate].
    destruct (Model_predict net rest) as [rows'|e]; simpl in Hrows;
      [|discriminate].
    injection Hrows as <-. simpl. f_equal. apply IH. reflexivity.
Qed.

Lemma Model_predict_lookup (net : Network) (batch : list Design) rows :
  Model_predict net batch = Ok rows ->
  forall (i : nat) (d : Design),
    batch !! i = Some d ->
    exists s, forward net d = Ok s /\ rows !! i = Some [s].
Proof.
  revert rows. induction batch as [|d0 rest IH]; intros rows Hrows i d Hi.
  - destruct i; discriminate.
  - simpl in Hrows.
    destruct (forward net d0) as [s0|e] eqn:Hs0; simpl in Hrows; [|discriminate].
    destruct (Model_predict net rest) as [rows'|e]; simpl in Hrows;
      [|discriminate].
    injection Hrows as <-. destruct i as [|i]; simpl in Hi.
    + injection Hi as <-. exists s0. split; [exact Hs0 | reflexivity].
    + simpl. apply (IH rows' eq_refl i d Hi).
Qed.

Lemma Model_predict_total (net : Network) (batch : list Design) :
  (forall d, d ∈ batch -> is_Ok (forward net d)) ->
  is_Ok (Model_predict net batch).
Proof.
  induction batch as [|d rest IH]; intros Hall; simpl; [exact I|].
  pose proof (Hall d ltac:(left)) as Hd.
  destruct (forward net d) as [s|e]; simpl in *; [|contradiction].
  assert (Hrest : is_Ok (Model_predict net rest)).
  { apply IH. intros d' Hd'. apply Hall. right. exact Hd'. }
  destruct (Model_predict net rest); simpl in *; [exact I | contradiction].
Qed.

(** Column 0 of an array, said without computing it: the entries that
    head its rows, row by row. *)
Lemma column0_heads {A} (rows : list (list A)) (col : list A) :
  column0 rows = Ok col <->
  Forall2 (fun row a => head row = Some a) rows col.
Proof.
  revert col. induction rows as [|row rest IH]; intros col; simpl.
  - split.
    + intros Hcol. injection Hcol as <-. constructor.
    + intros Hall. inversion Hall. reflexivity.
  - destruct row as [|a tail].
    + split; [discriminate|]. intros Hall. inversion Hall; subst.
      discriminate.
    + destruct (column0 rest) as [col'|e] eqn:Hrest; simpl.
      * split.
        -- intros Hcol. injection Hcol as <-. constructor; [reflexivity|].
           apply IH. reflexivity.
        -- intros Hall. inversion Hall as [|? b ? col'' Hhead Htail]; subst.
           simpl in Hhead. injection Hhead as <-.
           apply IH in Htail. injection Htail as <-. reflexivity.
      * split; [discriminate|].
        intros Hall. inversion Hall as [|? b ? col'' Hhead Htail]; subst.
        apply IH in Htail. discriminate.
Qed.

(** [protected_predict], run on a world whose oracle holds a network. *)
Lemma protected_predict_run (w : World) (m : gmap string Value)
    (net : Network) (batch : list Design) :
  model (self w) = Some m ->
  m !! key_model = Some (VModel net) ->
  protected_predict batch w = (Model_predict net batch, w).
Proof.
  intros Hm Hnet. unfold protected_predict. unfold_py.
  rewrite Hm. cbv beta iota. rewrite Hnet. reflexivity.
Qed.

End Methods.

(** ** Construction and compatibility *)

Section Construction.

Context `{L : Library}.

(** C7: [check_input_format] returns true for every argument; no shape or
    type restriction is enforced. *)
Theorem check_input_format_always_true (T : Type) (dataset : T) :
  check_input_format dataset = true.
Proof. reflexivity. Qed.

(** C10: whenever the constructor's call of the base constructor goes
    through (and it does unless [**kwargs] repeats a keyword the constructor
    writes out), it passes [is_batched = True], [internal_measurements = 1]
    and [expect_normalized_y = True]; [expect_normalized_x] is true exactly
    when the dataset is not a [DiscreteDataset]; [expect_logits] is [False]
    for a [DiscreteDataset] and [None] otherwise. *)
Theorem init_configuration (dataset : Dataset) (noise_std : Scalar)
    (batch_size : Z) (kwargs : gmap string PyObject) :
  (repeats_keyword kwargs = false ->
   is_Ok (__init__ dataset noise_std batch_size kwargs)) /\
  (forall kw, __init__ dataset noise_std batch_size kwargs = Ok kw ->
     kw_is_batched kw = true /\
     kw_internal_measurements kw = 1 /\
     kw_expect_normalized_y kw = true /\
     (kw_expect_normalized_x kw = true <-> is_DiscreteDataset dataset = false) /\
     (is_DiscreteDataset dataset = true -> kw_expect_logits kw = Some false) /\
     (is_DiscreteDataset dataset = false -> kw_expect_logits kw = None)).
Proof.
  unfold __init__. split.
  - intros ->. exact I.
  - intros kw Hkw. destruct (repeats_keyword kwargs); [discriminate|].
    injection Hkw as <-. simpl.
    destruct (is_DiscreteDataset dataset); simpl; repeat split;
      intros; congruence.
Qed.


End Construction.

(** ** Prediction *)

Section Prediction.

Context `{L : Library}.

(** C2: with no model fitted or loaded, [protected_predict] raises
    [AttributeError] for every batch and returns nothing. *)
Theorem protected_predict_without_model (w : World) (batch : list Design) :
  model (self w) = None ->
  protected_predict batch w = (Raise AttributeError, w).
Proof.
  intros Hnone. unfold protected_predict. unfold_py.
  rewrite Hnone. reflexivity.
Qed.

(** C8: with a model present, [protected_predict] hands the batch to the
    stored network and to nothing else: its result is the network's
    [predict] on the batch, which (when every design is accepted) has one
    row of one scalar per design, in the order of the batch; the world -
    the oracle with its model and rank correlation, the files, the
    archive - is the same after the call, whether it returned or raised. *)
Theorem protected_predict_reads_only (w : World) (m : gmap string Value)
    (net : Network) (batch : list Design) :
  model (self w) = Some m ->
  m !! key_model = Some (VModel net) ->
  snd (protected_predict batch w) = w /\
  fst (protected_predict batch w) = Model_predict net batch /\
  ((forall d, d ∈ batch -> is_Ok (forward net d)) ->
   exists rows,
     fst (protected_predict batch w) = Ok rows /\
     length rows = length batch /\
     forall (i : nat) (d : Design),
       batch !! i = Some d ->
       exists s, forward net d = Ok s /\ rows !! i = Some [s]).
Proof.
  intros Hm Hnet.
  rewrite (protected_predict_run w m net batch Hm Hnet).
  simpl. repeat split.
  intros Hall. pose proof (Model_predict_total net batch Hall) as Hok.
  destruct (Model_predict net batch) as [rows|e] eqn:Hrows; [|contradiction].
  exists rows. split; [reflexivity|]. split.
  - apply (Model_predict_length net batch rows Hrows).
  - apply (Model_predict_lookup net batch rows Hrows).
Qed.

End Prediction.

(** ** Fitting *)

Section Fitting.

Context `{B : Base}.

Variables (data : Dataset) (hidden_size : Z) (activation : string).
Variables (num_layers epochs shuffle_buffer : Z) (learning_rate : R).
Variable kwargs : gmap string PyObject.


(** [fit] leaves the world as it found it and ends in one of two ways. *)
Lemma fit_run (w : World) :
  fit data hidden_size activation num_layers epochs shuffle_buffer
    learning_rate kwargs w =
  (outcome_bind (split data kwargs) (fun parts =>
   outcome_bind
     (trained_network (self w) (fst parts) (snd parts) hidden_size activation
        num_layers epochs shuffle_buffer learning_rate) (fun net =>
   outcome_bind (validation_rank_correlation (self w) net (snd parts))
     (fun rc => Ok (model_dict net rc)))), w).
Proof.
  unfold fit, trained_network, validation_rank_correlation. unfold_py.
  destruct (split data kwargs) as [[training validation]|e]; simpl;
    [|reflexivity].
  destruct (dataset_to_oracle_x (self w) (x validation)); simpl;
    [|reflexivity].
  destruct (dataset_to_oracle_y (self w) (y validation)); simpl;
    [|reflexivity].
  destruct (keras_Model _); simpl; [|reflexivity].
  destruct (fit_steps _ _); simpl; [|reflexivity].
  destruct (create_tensorflow_dataset _ _ _ _ _); simpl; [|reflexivity].
  destruct (Model_fit _ _ _ _ _ _); simpl; [|reflexivity].
  destruct (Model_predict _ _); simpl; [|reflexivity].
  destruct (column0 _); simpl; [|reflexivity].
  destruct (column0 _); simpl; [|reflexivity].
  destruct (spearmanr _ _); reflexivity.
Qed.

(** C4: [fit] either raises or returns one dictionary, and the world is the
    same after either.  The dictionary has exactly the keys [model] and
    [rank_correlation].  Under [model] is the network that [Model.fit]
    returned for the network built on the training split; under
    [rank_correlation] is what [spearmanr] returned for two columns: the
    first entry of every row of that network's predictions on the
    validation designs taken through [dataset_to_oracle_x], and the first
    entry of every row of the validation measurements taken through
    [dataset_to_oracle_y].  Conversely, when all these calls go through,
    [fit] returns that dictionary. *)
Theorem fit_returns_model_and_rank_correlation (w : World) :
  (forall d w',
     fit data hidden_size activation num_layers epochs shuffle_buffer
       learning_rate kwargs w = (Ok d, w') ->
     w' = w /\
     dom d = ({[key_model; key_rank_correlation]} : gset string) /\
     exists training validation inputs targets built steps batches net
            predictions predicted measured rc,
       split data kwargs = Ok (training, validation) /\
       dataset_to_oracle_x (self w) (x validation) = Ok inputs /\
       dataset_to_oracle_y (self w) (y validation) = Ok targets /\
       keras_Model
         (fit_architecture training hidden_size activation num_layers)
         = Ok built /\
       fit_steps (dataset_size training) (internal_batch_size (self w))
         = Ok steps /\
       create_tensorflow_dataset (self w) training
         (internal_batch_size (self w)) shuffle_buffer epochs = Ok batches /\
       Model_fit built
         {| optimizer := Adam (CosineDecay learning_rate (steps * epochs) 0%R);
            loss := "mse" |}
         batches steps epochs (inputs, targets) = Ok net /\
       Model_predict net inputs = Ok predictions /\
       Forall2 (fun row s => head row = Some s) predictions predicted /\
       Forall2 (fun row s => head row = Some s) targets measured /\
       spearmanr predicted measured = Ok rc /\
       d !! key_model = Some (VModel net) /\
       d !! key_rank_correlation = Some (VScalar rc)) /\
  (forall e w',
     fit data hidden_size activation num_layers epochs shuffle_buffer
       learning_rate kwargs w = (Raise e, w') ->
     w' = w) /\
  (forall training validation inputs targets built steps batches net
          predictions predicted measured rc,
     split data kwargs = Ok (training, validation) ->
     dataset_to_oracle_x (self w) (x validation) = Ok inputs ->
     dataset_to_oracle_y (self w) (y validation) = Ok targets ->
     keras_Model
       (fit_architecture training hidden_size activation num_layers)
       = Ok built ->
     fit_steps (dataset_size training) (internal_batch_size (self w))
       = Ok steps ->
     create_tensorflow_dataset (self w) training
       (internal_batch_size (self w)) shuffle_buffer epochs = Ok batches ->
     Model_fit built
       {| optimizer := Adam (CosineDecay learning_rate (steps * epochs) 0%R);
          loss := "mse" |}
       batches steps epochs (inputs, targets) = Ok net ->
     Model_predict net inputs = Ok predictions ->
     Forall2 (fun row s => head row = Some s) predictions predicted ->
     Forall2 (fun row s => head row = Some s) targets measured ->
     spearmanr predicted measured = Ok rc ->
     exists d,
       fit data hidden_size activation num_layers epochs shuffle_buffer
         learning_rate kwargs w = (Ok d, w) /\
       d !! key_model = Some (VModel net) /\
       d !! key_rank_correlation = Some (VScalar rc)).
Proof.
  rewrite fit_run. split; [|split].
  - intros d w' Hrun. injection Hrun as Hd <-. split; [reflexivity|].
    destruct (split data kwargs) as [[training validation]|e]; simpl in Hd;
      [|discriminate].
    destruct (trained_network _ _ _ _ _ _ _ _ _) as [net|e] eqn:Hnet;
      simpl in Hd; [|discriminate].
    destruct (validation_rank_correlation _ _ _) as [rc|e] eqn:Hrc;
      simpl in Hd; [|discriminate].
    injection Hd as <-. split; [apply dom_model_dict|].
    unfold trained_network in Hnet.
    unfold validation_rank_correlation in Hrc.
    destruct (dataset_to_oracle_x _ _) as [inputs|e] eqn:Hx;
      simpl in Hnet, Hrc; [|discriminate].
    destruct (dataset_to_oracle_y _ _) as [targets|e] eqn:Hy;
      simpl in Hnet, Hrc; [|discriminate].
    destruct (keras_Model _) as [built|e] eqn:Hbuilt;
      simpl in Hnet; [|discriminate].
    destruct (fit_steps _ _) as [steps|e] eqn:Hsteps;
      simpl in Hnet; [|discriminate].
    destruct (create_tensorflow_dataset _ _ _ _ _) as [batches|e] eqn:Hdata;
      simpl in Hnet; [|discriminate].
    destruct (Model_predict net inputs) as [predictions|e] eqn:Hpred;
      simpl in Hrc; [|discriminate].
    destruct (column0 predictions) as [predicted|e] eqn:Hp0;
      simpl in Hrc; [|discriminate].
    destruct (column0 targets) as [measured|e] eqn:Hm0;
      simpl in Hrc; [|discriminate].
    apply column0_heads in Hp0. apply column0_heads in Hm0.
    exists training, validation, inputs, targets, built, steps, batches, net,
           predictions, predicted, measured, rc.
    repeat split; try assumption;
      try apply model_dict_model; try apply model_dict_rank_correlation.
  - intros e w' Hraise. congruence.
  - intros training validation inputs targets built steps batches net
           predictions predicted measured rc
           -> Hx Hy Hbuilt Hsteps Hdata Hnet Hpred Hp0 Hm0 Hrc.
    apply column0_heads in Hp0. apply column0_heads in Hm0.
    exists (model_dict net rc). split; [|split].
    + simpl. unfold trained_network, validation_rank_correlation.
      rewrite Hx, Hy. simpl. rewrite Hbuilt. simpl. rewrite Hsteps. simpl.
      rewrite Hdata. simpl.
      change (fit_compile learning_rate steps epochs)
        with {| optimizer :=
                  Adam (CosineDecay learning_rate (steps * epochs) 0%R);
                loss := "mse" |}.
      rewrite Hnet. simpl. rewrite Hpred. simpl. rewrite Hp0. simpl.
      rewrite Hm0. simpl. rewrite Hrc. reflexivity.
    + apply model_dict_model.
    + apply model_dict_rank_correlation.
Qed.

End Fitting.

(** ** Persistence *)

Section Persistence.

Context `{L : Library}.

Lemma set_tmp_same (w : World) : set_tmp (tmp w) w = w.
Proof. destruct w. reflexivity. Qed.

Lemma tmp_set_tmp (t : gmap nat TmpFile) (w : World) : tmp (set_tmp t w) = t.
Proof. reflexivity. Qed.

Lemma fresh_tmp_unused (w : World) : tmp w !! fresh (dom (tmp w)) = None.
Proof. apply not_elem_of_dom. apply is_fresh. Qed.

(** A body that ends with only its own file changed leaves no trace. *)
Lemma NamedTemporaryFile_run {A} (body : nat -> M A) (w : World) r t :
  (let name := fresh (dom (tmp w)) in
   body name (set_tmp (<[name := new_file]> (tmp w)) w) =
   (r, set_tmp (<[name := t]> (tmp w)) w)) ->
  NamedTemporaryFile body w = (r, w).
Proof.
  cbv zeta. intros Hbody. unfold NamedTemporaryFile. rewrite Hbody.
  f_equal. unfold set_tmp at 1. simpl.
  rewrite delete_insert_eq, delete_id by apply fresh_tmp_unused.
  apply set_tmp_same.
Qed.

(** Whatever the body does, the name it was given is unused before the
    block and unused again after it. *)
Lemma NamedTemporaryFile_scoped {A} (body : nat -> M A) (w : World) :
  let name := fresh (dom (tmp w)) in
  tmp w !! name = None /\
  tmp (snd (NamedTemporaryFile body w)) !! name = None.
Proof.
  cbv zeta. split; [apply fresh_tmp_unused|].
  unfold NamedTemporaryFile.
  destruct (body _ _) as [r w']. simpl. apply lookup_delete_eq.
Qed.

Lemma zip_lookup_last (name : string) (bytes : list byte) entries :
  zip_lookup name (entries ++ [(name, bytes)]) = Some bytes.
Proof.
  induction entries as [|[n b] rest IH]; simpl.
  - rewrite String.eqb_refl. reflexivity.
  - rewrite IH. reflexivity.
Qed.

Lemma zip_lookup_other (name other : string) (bytes : list byte) entries :
  other <> name ->
  zip_lookup name (entries ++ [(other, bytes)]) = zip_lookup name entries.
Proof.
  intros Hne. induction entries as [|[n b] rest IH]; simpl.
  - apply String.eqb_neq in Hne. rewrite Hne. reflexivity.
  - rewrite IH. reflexivity.
Qed.

(** What the stream has put on disk after one [write] on a new file:
    everything when the data is longer than the buffer, nothing otherwise. *)
Lemma on_disk_after_write (size : nat) (data : list byte) :
  on_disk (stream_write size data new_file) =
  if (size <? length data)%nat then data else [].
Proof.
  unfold stream_write. simpl. rewrite Nat.sub_0_r.
  destruct (length data <=? size)%nat eqn:Hfit.
  - apply Nat.leb_le in Hfit. simpl.
    destruct (size <? length data)%nat eqn:Hlong; [|reflexivity].
    apply Nat.ltb_lt in Hlong. lia.
  - apply Nat.leb_gt in Hfit.
    destruct (size <? length data)%nat eqn:Hlong; [reflexivity|].
    apply Nat.ltb_ge in Hlong. lia.
Qed.

(** [save_model_to_zip], run. *)
Lemma save_run (model : gmap string Value) (w : World) :
  save_model_to_zip model w =
  match model !! key_model with
  | None => (Raise KeyError, w)
  | Some (VScalar _) => (Raise AttributeError, w)
  | Some (VModel net) =>
      match Model_save net with
      | Raise e => (Raise e, w)
      | Ok image =>
          let z := zip_archive w ++ [(fully_connected_h5, image)] in
          match model !! key_rank_correlation with
          | None =>
              (Raise KeyError, set_zip (z ++ [(rank_correlation_npy, [])]) w)
          | Some (VModel _) =>
              (Raise AttributeError,
               set_zip (z ++ [(rank_correlation_npy, [])]) w)
          | Some (VScalar rc) =>
              (Ok tt, set_zip (z ++ [(rank_correlation_npy, dumps rc)]) w)
          end
      end
  end.
Proof.
  unfold save_model_to_zip. unfold bind at 1.
  destruct (model !! key_model) as [[net|s]|] eqn:Hm.
  - destruct (Model_save net) as [image|e] eqn:Himage.
    + rewrite (NamedTemporaryFile_run _ w (Ok image)
                 {| on_disk := image; pending := []; pos := length image |}).
      * unfold zip_write, bind, ret. cbv beta iota zeta. unfold getitem.
        destruct (model !! key_rank_correlation) as [[net'|rc]|]; reflexivity.
      * cbv zeta. unfold save_h5, file_read, with_file, update_file. unfold_py.
        rewrite Hm. cbv beta iota. rewrite Himage. simpl.
        rewrite lookup_insert_eq. simpl. rewrite lookup_insert_eq. simpl.
        rewrite app_nil_r. rewrite !insert_insert_eq. reflexivity.
    + rewrite (NamedTemporaryFile_run _ w (Raise e) new_file); [reflexivity|].
      cbv zeta. unfold save_h5. unfold_py. rewrite Hm. cbv beta iota.
      rewrite Himage. reflexivity.
  - rewrite (NamedTemporaryFile_run _ w (Raise AttributeError) new_file);
      [reflexivity|].
    cbv zeta. unfold_py. rewrite Hm. reflexivity.
  - rewrite (NamedTemporaryFile_run _ w (Raise KeyError) new_file);
      [reflexivity|].
    cbv zeta. unfold_py. rewrite Hm. reflexivity.
Qed.

(** [load_model_from_zip], run: the network is loaded from what the write
    through the stream has put on disk. *)
Lemma load_run (w : World) :
  load_model_from_zip w =
  (match zip_lookup rank_correlation_npy (zip_archive w) with
   | None => Raise KeyError
   | Some raw =>
       outcome_bind (np_loads raw) (fun rc =>
       match zip_lookup fully_connected_h5 (zip_archive w) with
       | None => Raise KeyError
       | Some bytes =>
           outcome_bind
             (load_model (on_disk (stream_write buffer_size bytes new_file)))
             (fun net => Ok (model_dict net rc))
       end)
   end, w).
Proof.
  unfold load_model_from_zip, zip_read. unfold_py.
  destruct (zip_lookup rank_correlation_npy (zip_archive w)) as [raw|];
    [|reflexivity].
  destruct (np_loads raw) as [rc|e]; simpl; [|reflexivity].
  destruct (zip_lookup fully_connected_h5 (zip_archive w)) as [bytes|];
    [|reflexivity].
  set (f := stream_write buffer_size bytes new_file).
  destruct (load_model (on_disk f)) as [net|e] eqn:Hnet; simpl.
  - apply (NamedTemporaryFile_run _ w (Ok (model_dict net rc)) f).
    cbv zeta. unfold file_write, load_model_path, with_file, update_file.
    unfold_py. rewrite tmp_set_tmp, lookup_insert_eq. cbv beta iota.
    rewrite !tmp_set_tmp, lookup_insert_eq. cbv beta iota. fold f.
    rewrite Hnet, insert_insert_eq. reflexivity.
  - apply (NamedTemporaryFile_run _ w (Raise e) f).
    cbv zeta. unfold file_write, load_model_path, with_file, update_file.
    unfold_py. rewrite tmp_set_tmp, lookup_insert_eq. cbv beta iota.
    rewrite !tmp_set_tmp, lookup_insert_eq. cbv beta iota. fold f.
    rewrite Hnet, insert_insert_eq. reflexivity.
Qed.

(** X3: the other side of the buffer.  [load_model_from_zip] writes the h5
    bytes through the stream of the temporary file and hands the file to
    Keras by name without flushing: bytes no longer than the stream's
    buffer are still in the buffer then, and Keras reads an empty file. *)
Lemma load_of_buffered_image (w : World) raw rc bytes :
  zip_lookup rank_correlation_npy (zip_archive w) = Some raw ->
  np_loads raw = Ok rc ->
  zip_lookup fully_connected_h5 (zip_archive w) = Some bytes ->
  (length bytes <= buffer_size)%nat ->
  load_model_from_zip w =
  (outcome_bind (load_model []) (fun net => Ok (model_dict net rc)), w).
Proof.
  intros Hraw Hrc Hbytes Hshort. rewrite load_run, Hraw, Hrc. simpl.
  rewrite Hbytes, on_disk_after_write.
  destruct (buffer_size <? length bytes)%nat eqn:Hlong; [|reflexivity].
  apply Nat.ltb_lt in Hlong. lia.
Qed.

Lemma Model_predict_ext (net net' : Network) (batch : list Design) :
  (forall d, forward net' d = forward net d) ->
  Model_predict net' batch = Model_predict net batch.
Proof.
  intros Hsame. induction batch as [|d rest IH]; simpl; [reflexivity|].
  rewrite Hsame, IH. reflexivity.
Qed.

(** C6: a successful [save_model_to_zip] adds exactly two entries to the
    archive, in this order and under these names: [fully_connected.h5] with
    the bytes Keras wrote for the network, and [rank_correlation.npy] with
    the pickled rank correlation; nothing else is written (so an archive
    that was empty holds these two entries and no other), and the oracle
    and the temporary files are as before.  The save succeeds whenever the
    dictionary holds a network Keras can serialize and a NumPy scalar. *)
Theorem save_writes_two_entries (model : gmap string Value) (w : World) :
  (forall w',
     save_model_to_zip model w = (Ok tt, w') ->
     exists net rc image,
       model !! key_model = Some (VModel net) /\
       model !! key_rank_correlation = Some (VScalar rc) /\
       Model_save net = Ok image /\
       zip_archive w' =
         zip_archive w ++
         [("fully_connected.h5"%string, image);
          ("rank_correlation.npy"%string, dumps rc)] /\
       self w' = self w /\ tmp w' = tmp w) /\
  (forall net rc image,
     model !! key_model = Some (VModel net) ->
     model !! key_rank_correlation = Some (VScalar rc) ->
     Model_save net = Ok image ->
     exists w', save_model_to_zip model w = (Ok tt, w')).
Proof.
  rewrite save_run. split.
  - intros w' Hsave.
    destruct (model !! key_model) as [[net|s]|]; [|discriminate..].
    destruct (Model_save net) as [image|e] eqn:Himage; [|discriminate].
    cbv zeta in Hsave.
    destruct (model !! key_rank_correlation) as [[net'|rc]|];
      [discriminate| |discriminate].
    injection Hsave as <-. exists net, rc, image. simpl.
    rewrite <- app_assoc. repeat split; try reflexivity. exact Himage.
  - intros net rc image -> -> ->. eexists. reflexivity.
Qed.

(** C9: the temporary file of [save_model_to_zip] and the one of
    [load_model_from_zip] exist only inside their [with] block: whether the
    method returns or raises, the temporary files after the call are those
    before it; and for any body at all, the name the block creates is
    unused when the block starts and unused again when it ends. *)
Theorem temporary_files_are_scoped :
  (forall (model : gmap string Value) (w : World),
     tmp (snd (save_model_to_zip model w)) = tmp w) /\
  (forall w : World, tmp (snd (load_model_from_zip w)) = tmp w) /\
  (forall (A : Type) (body : nat -> M A) (w : World),
     tmp w !! fresh (dom (tmp w)) = None /\
     tmp (snd (NamedTemporaryFile body w)) !! fresh (dom (tmp w)) = None).
Proof.
  split; [|split].
  - intros model w. rewrite save_run.
    destruct (model !! key_model) as [[net|s]|]; [|reflexivity..].
    destruct (Model_save net) as [image|e]; [|reflexivity].
    cbv zeta.
    destruct (model !! key_rank_correlation) as [[net'|rc]|]; reflexivity.
  - intros w. rewrite load_run. reflexivity.
  - intros A body w. apply (NamedTemporaryFile_scoped body w).
Qed.

(** The round trip where the buffer is not in the way: a fitted model
    dictionary that is saved and loaded again comes back with the rank
    correlation that was saved and with a network whose predictions,
    served by [protected_predict], are those of the network that was
    saved, on every batch.  The libraries are taken to do their part on
    this dictionary: Keras writes an h5 image and reads it back as a
    network computing the same function, NumPy reads back the scalar it
    pickled; and the image is longer than the buffer of the temporary
    file's stream. *)
Theorem save_load_round_trip (model : gmap string Value) (w : World)
    (net net' : Network) (rc : Scalar) (image : list byte) :
  model !! key_model = Some (VModel net) ->
  model !! key_rank_correlation = Some (VScalar rc) ->
  Model_save net = Ok image ->
  load_model image = Ok net' ->
  (forall d, forward net' d = forward net d) ->
  np_loads (dumps rc) = Ok rc ->
  (buffer_size < length image)%nat ->
  exists saved reloaded,
    save_model_to_zip model w = (Ok tt, saved) /\
    load_model_from_zip saved = (Ok reloaded, saved) /\
    reloaded !! key_rank_correlation = Some (VScalar rc) /\
    forall (batch : list Design) (o : World),
      fst (protected_predict batch (set_model reloaded o)) =
      fst (protected_predict batch (set_model model o)).
Proof.
  intros Hnet Hrc Himage Hload Hsame Hpickle Hlong.
  eexists. exists (model_dict net' rc). split; [|split; [|split]].
  - rewrite save_run, Hnet, Himage. cbv zeta. rewrite Hrc. reflexivity.
  - rewrite load_run. f_equal. simpl zip_archive.
    rewrite zip_lookup_last. rewrite Hpickle. simpl outcome_bind.
    rewrite zip_lookup_other by discriminate. rewrite zip_lookup_last.
    rewrite on_disk_after_write.
    apply Nat.ltb_lt in Hlong. rewrite Hlong, Hload. reflexivity.
  - apply model_dict_rank_correlation.
  - intros batch o.
    rewrite (protected_predict_run (set_model (model_dict net' rc) o)
               (model_dict net' rc) net' batch eq_refl
               (model_dict_model net' rc)).
    rewrite (protected_predict_run (set_model model o) model net batch
               eq_refl Hnet).
    apply Model_predict_ext. exact Hsame.
Qed.

(** C1 does not hold of the code.  [load_model_from_zip] writes the image
    with [file.write] and hands [file.name] to Keras without flushing
    (lines 184-187).  For a fitted model dictionary that the libraries
    would round-trip, whose image is no longer than the buffer of the
    temporary file's stream, the save succeeds and the load gives Keras
    an empty file: the outcome is that of [load_model] on no bytes at all,
    not the network that was saved. *)
Theorem save_load_loses_buffered_image (model : gmap string Value)
    (w : World) (net : Network) (rc : Scalar) (image : list byte) :
  model !! key_model = Some (VModel net) ->
  model !! key_rank_correlation = Some (VScalar rc) ->
  Model_save net = Ok image ->
  np_loads (dumps rc) = Ok rc ->
  (length image <= buffer_size)%nat ->
  exists saved,
    save_model_to_zip model w = (Ok tt, saved) /\
    load_model_from_zip saved =
      (outcome_bind (load_model []) (fun net' => Ok (model_dict net' rc)),
       saved).
Proof.
  intros Hnet Hrc Himage Hpickle Hshort. eexists. split.
  - rewrite save_run, Hnet, Himage. cbv zeta. rewrite Hrc. reflexivity.
  - rewrite load_run. f_equal. simpl zip_archive.
    rewrite zip_lookup_last. rewrite Hpickle. simpl outcome_bind.
    rewrite zip_lookup_other by discriminate. rewrite zip_lookup_last.
    rewrite on_disk_after_write.
    destruct (buffer_size <? length image)%nat eqn:Hlong; [|reflexivity].
    apply Nat.ltb_lt in Hlong. lia.
Qed.

End Persistence.

(** ** The training set-up *)

Section Training.

Import PyNum.

Lemma quotient_exponent_spec (a b : Z) :
  0 < a -> 0 < b ->
  let k := Z.log2 b + 1 in
  let j := quotient_exponent a b + k in
  0 <= j /\ b * 2 ^ j <= a * 2 ^ k < b * 2 ^ (j + 1).
Proof.
  intros Ha Hb k j.
  assert (Hk : 0 < k) by (pose proof (Z.log2_nonneg b); lia).
  assert (Hbk : b < 2 ^ k).
  { unfold k. apply Z.log2_spec in Hb.
    replace (Z.log2 b + 1) with (Z.succ (Z.log2 b)) by lia. lia. }
  assert (Hpk : 0 < 2 ^ k) by (apply Z.pow_pos_nonneg; lia).
  set (q := a * 2 ^ k / b).
  assert (Hq : 1 <= q) by (unfold q; apply Z.div_le_lower_bound; nia).
  assert (Hj : j = Z.log2 q) by (unfold j, quotient_exponent, q, k; lia).
  pose proof (Z.log2_nonneg q) as Hj0.
  pose proof (Z.log2_spec q ltac:(lia)) as [Hlo Hhi].
  rewrite <- Hj in Hlo, Hhi.
  replace (Z.succ j) with (j + 1) in Hhi by lia.
  assert (Hdiv : b * q <= a * 2 ^ k < b * (q + 1)).
  { unfold q. pose proof (Z.div_mod (a * 2 ^ k) b ltac:(lia)).
    pose proof (Z.mod_pos_bound (a * 2 ^ k) b Hb). nia. }
  split; [lia|]. split; nia.
Qed.

Lemma round_half_even_bounds (n d : Z) :
  0 <= n -> 0 < d ->
  let m := round_half_even n d in
  n / d <= m <= n / d + 1 /\
  (n mod d = 0 -> m = n / d) /\
  (d < 2 * (n mod d) -> m = n / d + 1).
Proof.
  intros Hn Hd. unfold round_half_even. cbv zeta.
  pose proof (Z.mod_pos_bound n d Hd).
  destruct (2 * (n mod d) <? d) eqn:H1;
    [apply Z.ltb_lt in H1 | apply Z.ltb_ge in H1].
  - repeat split; lia.
  - destruct (d <? 2 * (n mod d)) eqn:H2;
      [apply Z.ltb_lt in H2 | apply Z.ltb_ge in H2].
    + repeat split; lia.
    + destruct (Z.even (n / d)); repeat split; lia.
Qed.

(** Rounding a quotient that carries 53 significant bits never crosses an
    integer when the dividend is below 2^53. *)
Lemma ceil_of_rounded (a b s : Z) :
  0 < a < 2 ^ 53 -> 0 < b -> 0 <= s -> b * 2 ^ 52 <= a * 2 ^ s ->
  - ((- round_half_even (a * 2 ^ s) b) / 2 ^ s) = - ((- a) / b).
Proof.
  intros Ha Hb Hs Hnorm.
  set (P := 2 ^ s) in *.
  assert (HP : 0 < P) by (apply Z.pow_pos_nonneg; lia).
  assert (H52 : 2 ^ 53 = 2 * 2 ^ 52) by reflexivity.
  assert (Hp52 : 0 < 2 ^ 52) by reflexivity.
  assert (HbP : b < 2 * P) by nia.
  destruct (round_half_even_bounds (a * P) b ltac:(nia) Hb)
    as (Hm & Hexact & Hup).
  set (m := round_half_even (a * P) b) in *.
  pose proof (Z.div_mod a b ltac:(lia)) as Hab.
  pose proof (Z.mod_pos_bound a b Hb) as Hr.
  pose proof (Z.div_mod (a * P) b ltac:(lia)) as Hn.
  pose proof (Z.mod_pos_bound (a * P) b Hb) as Hrem.
  set (k := a / b) in *. set (r := a mod b) in *.
  set (q := a * P / b) in *. set (rem := (a * P) mod b) in *.
  assert (Hmk : if Z.eq_dec r 0 then m = k * P /\ - a = b * - k
                else k * P < m <= (k + 1) * P /\
                     b * - (k + 1) < - a < b * - k).
  { destruct (Z.eq_dec r 0) as [Hr0|Hr0].
    - assert (Hq : q = k * P) by nia.
      assert (Hrem0 : rem = 0) by nia.
      split; [rewrite (Hexact Hrem0); exact Hq | lia].
    - assert (Hqlo : k * P <= q) by nia.
      assert (Hqhi : q < (k + 1) * P) by nia.
      split; [|nia]. split; [|lia].
      destruct (Z.eq_dec q (k * P)) as [Hq|Hq]; [|lia].
      assert (Hrem' : rem = r * P) by nia.
      rewrite Hup; nia. }
  destruct (Z.eq_dec r 0) as [Hr0|Hr0].
  - destruct Hmk as [-> Hna]. rewrite Hna.
    replace (- (k * P)) with ((- k) * P) by lia.
    rewrite Z.div_mul by lia. rewrite Z.mul_comm, Z.div_mul by lia.
    reflexivity.
  - destruct Hmk as [Hmb Hab'].
    assert (H1 : - m / P = - (k + 1)).
    { symmetry.
      apply (Z.div_unique_pos (- m) P (- (k + 1)) (- m + (k + 1) * P)); lia. }
    assert (H2 : - a / b = - (k + 1)).
    { symmetry.
      apply (Z.div_unique_pos (- a) b (- (k + 1)) (- a + (k + 1) * b)); lia. }
    rewrite H1, H2. reflexivity.
Qed.

Lemma pow2_lt (i j : Z) : 0 <= i -> 2 ^ i < 2 ^ j -> i < j.
Proof.
  intros Hi Hlt. destruct (Z.lt_ge_cases j 0) as [Hj|Hj].
  - rewrite (Z.pow_neg_r 2 j Hj) in Hlt.
    pose proof (Z.pow_pos_nonneg 2 i ltac:(lia) Hi). lia.
  - apply (Z.pow_lt_mono_r_iff 2 i j); lia.
Qed.

(** Below 2^53 the float quotient is precise enough: the steps-per-epoch
    of [fit] is the ceiling of the exact quotient. *)
Lemma fit_steps_exact (a b : Z) :
  0 <= a < 2 ^ 53 -> 0 < b < 2 ^ 53 ->
  fit_steps a b = Ok (exact_ceiling a b).
Proof.
  intros Ha Hb. unfold fit_steps, int_true_divide, exact_ceiling.
  destruct (b =? 0) eqn:Hb0; [apply Z.eqb_eq in Hb0; lia|].
  destruct (a =? 0) eqn:Ha0.
  - apply Z.eqb_eq in Ha0. subst a. reflexivity.
  - apply Z.eqb_neq in Ha0. assert (Ha' : 0 < a) by lia.
    rewrite (Z.abs_eq a), (Z.abs_eq b) by lia.
    destruct (quotient_exponent_spec a b Ha' ltac:(lia)) as (Hj & Hlo & Hhi).
    set (k := Z.log2 b + 1) in *. set (l := quotient_exponent a b) in *.
    assert (Hk : 0 <= k) by (pose proof (Z.log2_nonneg b); lia).
    assert (Hpk : 0 < 2 ^ k) by (apply Z.pow_pos_nonneg; lia).
    assert (Hpj : 0 < 2 ^ (l + k)) by (apply Z.pow_pos_nonneg; lia).
    assert (Hl52 : l <= 52).
    { assert (2 ^ (l + k) < 2 ^ (53 + k)).
      { rewrite (Z.pow_add_r 2 53 k) by lia. nia. }
      apply pow2_lt in H; lia. }
    assert (Hl53 : -53 <= l).
    { assert (2 ^ k < 2 ^ (l + k + 1 + 53)).
      { rewrite (Z.pow_add_r 2 (l + k + 1) 53) by lia.
        assert (0 < 2 ^ (l + k + 1)) by (apply Z.pow_pos_nonneg; lia). nia. }
      apply pow2_lt in H; lia. }
    rewrite (Z.max_l (l - 52) (-1074)) by lia.
    rewrite (Z.max_r 0 (- (l - 52))) by lia.
    rewrite (Z.max_l 0 (l - 52)) by lia.
    change (2 ^ 0) with 1. rewrite Z.mul_1_r.
    set (s := - (l - 52)).
    assert (Hs : 0 <= s) by (unfold s; lia).
    assert (Hnorm : b * 2 ^ 52 <= a * 2 ^ s).
    { assert (Hps : 0 < 2 ^ s) by (apply Z.pow_pos_nonneg; lia).
      assert (Heq : 2 ^ (l + k) * 2 ^ s = 2 ^ 52 * 2 ^ k).
      { rewrite <- !Z.pow_add_r by lia. f_equal. unfold s. lia. }
      nia. }
    pose proof (ceil_of_rounded a b s ltac:(lia) ltac:(lia) Hs Hnorm) as Hceil.
    destruct (round_half_even_bounds (a * 2 ^ s) b) as (Hm & _ & _).
    { assert (0 < 2 ^ s) by (apply Z.pow_pos_nonneg; lia). nia. }
    { lia. }
    set (m := round_half_even (a * 2 ^ s) b) in *.
    assert (Hsgn : Z.sgn a * Z.sgn b * m = m).
    { rewrite (Z.sgn_pos a), (Z.sgn_pos b) by lia. lia. }
    assert (Hover : (0 <=? l - 52) && (2 ^ 1024 <=? m * 2 ^ (l - 52)) = false).
    { destruct (0 <=? l - 52) eqn:He; [|reflexivity]. simpl.
      apply Z.leb_le in He. assert (Hl : l = 52) by lia.
      apply Z.leb_gt. replace (l - 52) with 0 by lia.
      change (2 ^ 0) with 1. rewrite Z.mul_1_r.
      assert (Hs0 : s = 0) by (unfold s; lia). rewrite Hs0 in Hm.
      change (2 ^ 0) with 1 in Hm. rewrite Z.mul_1_r in Hm.
      assert (a / b <= a) by (apply Z.div_le_upper_bound; nia).
      assert (2 ^ 53 + 1 < 2 ^ 1024) by reflexivity. lia. }
    rewrite Hover. simpl outcome_bind. f_equal. rewrite Hsgn.
    unfold math_ceil. simpl mant. simpl expo.
    destruct (0 <=? l - 52) eqn:He.
    + apply Z.leb_le in He. assert (Hs0 : s = 0) by (unfold s; lia).
      rewrite <- Hceil. rewrite Hs0. replace (l - 52) with 0 by lia.
      change (2 ^ 0) with 1. rewrite Z.mul_1_r, Z.div_1_r. lia.
    + rewrite <- Hceil. reflexivity.
Qed.

(** The cosine schedule over a positive horizon. *)
Lemma cosine_decay_start (initial : R) (horizon : Z) :
  0 < horizon ->
  decayed_learning_rate (CosineDecay initial horizon 0%R) 0 = Some initial.
Proof.
  intros Hh. unfold decayed_learning_rate.
  destruct (horizon =? 0) eqn:H0; [apply Z.eqb_eq in H0; lia|].
  rewrite Z.min_l by lia. f_equal.
  replace (PI * (IZR 0 / IZR horizon))%R with 0%R
    by (unfold Rdiv; rewrite Rmult_0_l, Rmult_0_r; reflexivity).
  rewrite cos_0. lra.
Qed.

Lemma cosine_decay_end (initial : R) (horizon step : Z) :
  0 < horizon -> horizon <= step ->
  decayed_learning_rate (CosineDecay initial horizon 0%R) step = Some 0%R.
Proof.
  intros Hh Hstep. unfold decayed_learning_rate.
  destruct (horizon =? 0) eqn:H0; [apply Z.eqb_eq in H0; lia|].
  rewrite Z.min_r by lia. f_equal.
  assert (Hpos : (0 < IZR horizon)%R) by (apply IZR_lt; exact Hh).
  replace (PI * (IZR horizon / IZR horizon))%R with PI
    by (field; lra).
  rewrite cos_PI. lra.
Qed.

Lemma cosine_decay_decreasing (initial : R) (horizon s t : Z) :
  (0 <= initial)%R -> 0 < horizon -> 0 <= s <= t ->
  exists rs rt,
    decayed_learning_rate (CosineDecay initial horizon 0%R) s = Some rs /\
    decayed_learning_rate (CosineDecay initial horizon 0%R) t = Some rt /\
    (0 <= rt <= rs)%R /\ (rs <= initial)%R.
Proof.
  intros Hinit Hh Hst. unfold decayed_learning_rate.
  destruct (horizon =? 0) eqn:H0; [apply Z.eqb_eq in H0; lia|].
  eexists. eexists. split; [reflexivity|]. split; [reflexivity|].
  assert (Hpos : (0 < IZR horizon)%R) by (apply IZR_lt; exact Hh).
  assert (Hfrac : forall u, 0 <= u ->
            (0 <= PI * (IZR (Z.min u horizon) / IZR horizon) <= PI)%R).
  { intros u Hu. pose proof PI_RGT_0 as Hpi.
    assert (0 <= IZR (Z.min u horizon) <= IZR horizon)%R as [Hlo Hhi].
    { split; [apply IZR_le | apply IZR_le]; lia. }
    assert (0 <= IZR (Z.min u horizon) / IZR horizon <= 1)%R as [Hl Hu1].
    { split.
      - apply Rmult_le_pos; [exact Hlo|]. left. apply Rinv_0_lt_compat. lra.
      - apply (Rmult_le_reg_r (IZR horizon)); [exact Hpos|].
        unfold Rdiv. rewrite Rmult_assoc, Rinv_l by lra. lra. }
    split; [apply Rmult_le_pos; lra|].
    rewrite <- (Rmult_1_r PI) at 2. apply Rmult_le_compat_l; lra. }
  assert (Hmono : (IZR (Z.min s horizon) / IZR horizon <=
                   IZR (Z.min t horizon) / IZR horizon)%R).
  { apply Rmult_le_compat_r; [left; apply Rinv_0_lt_compat; lra|].
    apply IZR_le. lia. }
  pose proof (Hfrac s ltac:(lia)) as [Hs0 Hs1].
  pose proof (Hfrac t ltac:(lia)) as [Ht0 Ht1].
  pose proof PI_RGT_0 as Hpi.
  assert (Hcos : (cos (PI * (IZR (Z.min t horizon) / IZR horizon)) <=
                  cos (PI * (IZR (Z.min s horizon) / IZR horizon)))%R).
  { apply cos_decr_1; try assumption. apply Rmult_le_compat_l; lra. }
  pose proof (COS_bound (PI * (IZR (Z.min t horizon) / IZR horizon))) as [Hct _].
  pose proof (COS_bound (PI * (IZR (Z.min s horizon) / IZR horizon))) as [_ Hcs].
  set (ct := cos (PI * (IZR (Z.min t horizon) / IZR horizon))) in *.
  set (cs := cos (PI * (IZR (Z.min s horizon) / IZR horizon))) in *.
  repeat split; nra.
Qed.

(** C5, as the code has it: for a training split of at least one and
    fewer than 2^53 designs, a batch size between 1 and 2^53 - 1 and at
    least one epoch, [fit] takes the ceiling of size over batch size for
    steps-per-epoch and compiles the network with the mean-squared-error
    loss and Adam on a cosine schedule over epochs times steps-per-epoch
    steps, a positive horizon: the rate is the initial learning rate at
    step 0, exactly zero at the horizon and from then on, and for a
    non-negative initial rate it never rises in between. *)
Theorem fit_training_setup (dataset_size internal_batch_size epochs : Z)
    (learning_rate : R) :
  0 < dataset_size < 2 ^ 53 ->
  0 < internal_batch_size < 2 ^ 53 ->
  0 < epochs ->
  cosine_training_setup dataset_size internal_batch_size epochs learning_rate /\
  (forall steps,
     fit_steps dataset_size internal_batch_size = Ok steps ->
     let schedule := schedule_of (fit_compile learning_rate steps epochs) in
     0 < horizon_of schedule /\
     (forall step, horizon_of schedule <= step ->
        decayed_learning_rate schedule step = Some 0%R) /\
     ((0 <= learning_rate)%R ->
      forall s t, 0 <= s <= t ->
        exists rs rt,
          decayed_learning_rate schedule s = Some rs /\
          decayed_learning_rate schedule t = Some rt /\
          (0 <= rt <= rs)%R /\ (rs <= learning_rate)%R)).
Proof.
  intros Hsize Hbatch Hepochs.
  pose proof (fit_steps_exact dataset_size internal_batch_size
                ltac:(lia) Hbatch) as Hsteps.
  assert (Hpos : 0 < exact_ceiling dataset_size internal_batch_size).
  { unfold exact_ceiling.
    assert (- dataset_size / internal_batch_size < 0); [|lia].
    apply Z.div_lt_upper_bound; lia. }
  split.
  - exists (exact_ceiling dataset_size internal_batch_size).
    exists (CosineDecay learning_rate
              (exact_ceiling dataset_size internal_batch_size * epochs) 0%R).
    repeat split.
    + exact Hsteps.
    + simpl. lia.
    + apply cosine_decay_start. lia.
    + apply cosine_decay_end; lia.
  - intros steps Hs. rewrite Hsteps in Hs. injection Hs as <-.
    cbv zeta. unfold schedule_of, fit_compile, optimizer, horizon_of.
    split; [lia|]. split.
    + intros step Hstep. apply cosine_decay_end; lia.
    + intros Hlr s t Hst. apply cosine_decay_decreasing; [exact Hlr|lia|lia].
Qed.

(** C5 as stated fails where the specification itself sets no goal: with
    [epochs = 0] the horizon is zero steps and the schedule has no rate to
    give, let alone zero; and from 2^53 designs on, the float quotient no
    longer determines the ceiling. *)
Lemma fit_training_setup_not_for_every_input :
  ~ cosine_training_setup 100 32 0 (1 / 1000)%R /\
  ~ cosine_training_setup (2 ^ 53 + 1) 1 5 (1 / 1000)%R.
Proof.
  split.
  - intros (steps & schedule & Hsteps & _ & _ & Hopt & _ & _ & Hend).
    assert (H4 : fit_steps 100 32 = Ok 4) by (vm_compute; reflexivity).
    rewrite H4 in Hsteps. injection Hsteps as <-.
    unfold fit_compile in Hopt. simpl in Hopt. injection Hopt as <-.
    simpl in Hend. discriminate.
  - intros (steps & schedule & Hsteps & Hceil & _).
    assert (H53 : fit_steps (2 ^ 53 + 1) 1 = Ok (2 ^ 53))
      by (vm_compute; reflexivity).
    rewrite H53 in Hsteps. injection Hsteps as <-.
    vm_compute in Hceil. discriminate.
Qed.

End Training.

(** * The theorems at work on the small instance *)

Lemma init_configuration_witness :
  exists kw,
    @__init__ Toy.library Toy.discrete_logits 0 32 ∅ = Ok kw /\
    kw_is_batched kw = true /\
    kw_internal_measurements kw = 1 /\
    kw_expect_normalized_y kw = true /\
    kw_expect_normalized_x kw = false /\
    kw_expect_logits kw = Some false.
Proof.
  destruct (@init_configuration Toy.library Toy.discrete_logits 0 32 ∅)
    as [_ Hfields].
  eexists. split; [reflexivity|].
  destruct (Hfields _ eq_refl) as (H1 & H2 & H3 & _ & H5 & _).
  exact (conj H1 (conj H2 (conj H3 (conj eq_refl (H5 eq_refl))))).
Defined.


Lemma protected_predict_without_model_witness :
  @protected_predict Toy.library [1; 2; 3] (Toy.world None) =
  (Raise AttributeError, Toy.world None).
Proof.
  apply (@protected_predict_without_model Toy.library). reflexivity.
Defined.

Lemma protected_predict_reads_only_witness :
  fst (@protected_predict Toy.library [1; 2; 3] (Toy.world (Some Toy.fitted)))
    = Ok [[3]; [6]; [9]] /\
  snd (@protected_predict Toy.library [1; 2; 3] (Toy.world (Some Toy.fitted)))
    = Toy.world (Some Toy.fitted).
Proof.
  destruct (@protected_predict_reads_only Toy.library
              (Toy.world (Some Toy.fitted)) Toy.fitted 3 [1; 2; 3]
              eq_refl eq_refl) as (Hworld & Hresult & _).
  split; [rewrite Hresult; reflexivity | exact Hworld].
Defined.

Lemma fit_returns_model_and_rank_correlation_witness :
  exists d,
    @fit Toy.library Toy.base Toy.continuous 512 "relu" 2 5 5000
      (1 / 1000)%R ∅ (Toy.world None) = (Ok d, Toy.world None) /\
    d !! key_model = Some (@VModel Toy.library 1) /\
    d !! key_rank_correlation = Some (@VScalar Toy.library 1).
Proof.
  destruct (@fit_returns_model_and_rank_correlation Toy.library Toy.base
              Toy.continuous 512 "relu" 2 5 5000 (1 / 1000)%R ∅
              (Toy.world None)) as (_ & _ & Hgoes).
  apply (Hgoes Toy.continuous Toy.continuous [1; 2; 3] [[1]; [2]; [3]]
           0 1 tt 1 [[1]; [2]; [3]] [1; 2; 3] [1; 2; 3] 1);
    try reflexivity; repeat constructor.
Defined.

Lemma save_writes_two_entries_witness :
  exists w',
    @save_model_to_zip Toy.library Toy.fitted (Toy.world None) = (Ok tt, w') /\
    zip_archive w' =
      [("fully_connected.h5"%string, Toy.hdf5_signature ++ [x03]);
       ("rank_correlation.npy"%string, [x01])].
Proof.
  destruct (@save_writes_two_entries Toy.library Toy.fitted (Toy.world None))
    as [Hentries Hgoes].
  destruct (Hgoes 3 1 (Toy.hdf5_signature ++ [x03]) eq_refl eq_refl eq_refl)
    as [w' Hsave].
  exists w'. split; [exact Hsave|].
  destruct (Hentries w' Hsave)
    as (net & rc & image & Hnet & Hrc & Himage & Hzip & _).
  rewrite Hzip.
  injection Hnet as <-. injection Hrc as <-. injection Himage as <-.
  reflexivity.
Defined.

Lemma save_load_round_trip_witness :
  exists saved reloaded,
    @save_model_to_zip Toy.library Toy.fitted (Toy.world None) = (Ok tt, saved) /\
    @load_model_from_zip Toy.library saved = (Ok reloaded, saved) /\
    reloaded !! key_rank_correlation = Some (@VScalar Toy.library 1) /\
    forall (batch : list Z) (o : @World Toy.library),
      fst (@protected_predict Toy.library batch (set_model reloaded o)) =
      fst (@protected_predict Toy.library batch (set_model Toy.fitted o)).
Proof.
  apply (@save_load_round_trip Toy.library Toy.fitted (Toy.world None) 3 3 1
           (Toy.hdf5_signature ++ [x03])); try reflexivity.
  simpl. lia.
Defined.

Lemma fit_training_setup_witness :
  cosine_training_setup 100 32 5 (1 / 1000)%R.
Proof.
  apply (fit_training_setup 100 32 5 (1 / 1000)%R);
    [split; reflexivity | split; reflexivity | reflexivity].
Defined.

(** * Further properties of the methods *)

(** ** Persistence: failures and frames *)

Section PersistenceEdges.

Context `{L : Library}.

Lemma zip_lookup_None (name : string) entries :
  zip_lookup name entries = None <->
  forall bytes : list byte, (name, bytes) ∉ entries.
Proof.
  induction entries as [|[n b] rest IH]; simpl.
  - split; [intros _ bytes Hin; inversion Hin | reflexivity].
  - destruct (zip_lookup name rest) as [later|] eqn:Hrest.
    + split; [discriminate|]. intros Hnone.
      assert (Hlater : Some later = None); [|discriminate].
      apply IH. intros bytes Hin. apply (Hnone bytes). right. exact Hin.
    + destruct (String.eqb n name) eqn:Hn.
      * apply String.eqb_eq in Hn. subst n.
        split; [discriminate|]. intros Hnone. exfalso.
        apply (Hnone b). left.
      * apply String.eqb_neq in Hn. split; [|reflexivity].
        intros _ bytes Hin. apply elem_of_cons in Hin as [Heq|Hin].
        -- injection Heq as -> _. congruence.
        -- revert Hin. apply IH. reflexivity.
Qed.

(** X1: [load_model_from_zip] on an archive with no entry named
    [rank_correlation.npy] raises [KeyError]; so it does with that entry
    readable and no entry named [fully_connected.h5]; an entry NumPy
    cannot unpickle surfaces NumPy's exception unchanged.  The rank
    correlation is read first, and in all three cases the world is left as
    it was. *)
Theorem load_missing_entry (w : World) :
  ((forall bytes : list byte,
      ("rank_correlation.npy"%string, bytes) ∉ zip_archive w) ->
   load_model_from_zip w = (Raise KeyError, w)) /\
  (forall raw rc,
     zip_lookup "rank_correlation.npy" (zip_archive w) = Some raw ->
     np_loads raw = Ok rc ->
     (forall bytes : list byte,
        ("fully_connected.h5"%string, bytes) ∉ zip_archive w) ->
     load_model_from_zip w = (Raise KeyError, w)) /\
  (forall raw e,
     zip_lookup "rank_correlation.npy" (zip_archive w) = Some raw ->
     np_loads raw = Raise e ->
     load_model_from_zip w = (Raise e, w)).
Proof.
  rewrite load_run. split; [|split].
  - intros Hnone. apply zip_lookup_None in Hnone.
    unfold rank_correlation_npy. rewrite Hnone. reflexivity.
  - intros raw rc Hraw Hrc Hnone. apply zip_lookup_None in Hnone.
    unfold rank_correlation_npy, fully_connected_h5.
    rewrite Hraw, Hrc. simpl. rewrite Hnone. reflexivity.
  - intros raw e Hraw He. unfold rank_correlation_npy.
    rewrite Hraw, He. reflexivity.
Qed.


(** X4: [load_model_from_zip] only reads: whatever it returns or raises,
    the oracle, the temporary files and the archive are as before.
    [save_model_to_zip] never touches the oracle or the temporary files and
    only appends to the archive: the entries that were there stay, in
    place, followed by at most two new ones named [fully_connected.h5] or
    [rank_correlation.npy]. *)
Theorem persistence_frame (w : World) :
  snd (load_model_from_zip w) = w /\
  (forall model : gmap string Value,
     self (snd (save_model_to_zip model w)) = self w /\
     tmp (snd (save_model_to_zip model w)) = tmp w /\
     exists added,
       zip_archive (snd (save_model_to_zip model w)) = zip_archive w ++ added /\
       (length added <= 2)%nat /\
       forall name bytes, (name, bytes) ∈ added ->
         name = "fully_connected.h5"%string \/
         name = "rank_correlation.npy"%string).
Proof.
  split; [rewrite load_run; reflexivity|].
  intros model. rewrite save_run.
  assert (Hnothing : exists added : list (string * list byte),
            zip_archive w = zip_archive w ++ added /\
            (length added <= 2)%nat /\
            forall name bytes, (name, bytes) ∈ added ->
              name = "fully_connected.h5"%string \/
              name = "rank_correlation.npy"%string).
  { exists []. rewrite app_nil_r. repeat split; [simpl; lia|].
    intros name bytes Hin. inversion Hin. }
  assert (Htwo : forall image raw, exists added : list (string * list byte),
            (zip_archive w ++ [(fully_connected_h5, image)]) ++
              [(rank_correlation_npy, raw)] = zip_archive w ++ added /\
            (length added <= 2)%nat /\
            forall name bytes, (name, bytes) ∈ added ->
              name = "fully_connected.h5"%string \/
              name = "rank_correlation.npy"%string).
  { intros image raw.
    exists [(fully_connected_h5, image); (rank_correlation_npy, raw)].
    rewrite <- app_assoc. repeat split; [simpl; lia|].
    intros name bytes Hin.
    apply elem_of_cons in Hin as [Heq|Hin]; [injection Heq as -> _; left; reflexivity|].
    apply elem_of_cons in Hin as [Heq|Hin]; [injection Heq as -> _; right; reflexivity|].
    inversion Hin. }
  destruct (model !! key_model) as [[net|s]|]; [|repeat split; exact Hnothing..].
  destruct (Model_save net) as [image|e]; [|repeat split; exact Hnothing].
  cbv zeta.
  destruct (model !! key_rank_correlation) as [[net'|rc]|];
    repeat split; apply Htwo.
Qed.

(** X10: only the two keys survive.  [save_model_to_zip] looks at nothing
    of the dictionary but [model] and [rank_correlation]: two dictionaries
    that agree there are saved alike, whatever else they hold.  And every
    dictionary [load_model_from_zip] returns has exactly these two keys,
    a network under the first and a scalar under the second. *)
Theorem only_two_keys_persist (w : World) :
  (forall model model' : gmap string Value,
     model !! key_model = model' !! key_model ->
     model !! key_rank_correlation = model' !! key_rank_correlation ->
     save_model_to_zip model w = save_model_to_zip model' w) /\
  (forall loaded w',
     load_model_from_zip w = (Ok loaded, w') ->
     dom loaded = ({[key_model; key_rank_correlation]} : gset string) /\
     exists net rc,
       loaded !! key_model = Some (VModel net) /\
       loaded !! key_rank_correlation = Some (VScalar rc)).
Proof.
  split.
  - intros model model' Hm Hrc. rewrite !save_run, Hm, Hrc. reflexivity.
  - intros loaded w' Hload. rewrite load_run in Hload.
    injection Hload as Hloaded _.
    destruct (zip_lookup rank_correlation_npy (zip_archive w)) as [raw|];
      [|discriminate].
    destruct (np_loads raw) as [rc|e]; simpl in Hloaded; [|discriminate].
    destruct (zip_lookup fully_connected_h5 (zip_archive w)) as [bytes|];
      [|discriminate].
    destruct (load_model _) as [net|e]; simpl in Hloaded; [|discriminate].
    injection Hloaded as <-. split; [apply dom_model_dict|].
    exists net, rc.
    split; [apply model_dict_model | apply model_dict_rank_correlation].
Qed.

End PersistenceEdges.

(** ** Prediction: frame and malformed dictionaries *)

Section PredictionEdges.

Context `{L : Library}.

(** X7: [protected_predict] never writes: for every world and every batch,
    with or without a model and whatever the dictionary holds, the world
    after the call is the world before it.  A dictionary without the key
    [model] gives [KeyError], one holding something that is not a network
    there gives [AttributeError]; and the result depends on nothing but
    the network and the batch. *)
Theorem protected_predict_never_writes (w : World) (batch : list Design) :
  snd (protected_predict batch w) = w /\
  (forall m, model (self w) = Some m -> m !! key_model = None ->
     fst (protected_predict batch w) = Raise KeyError) /\
  (forall m s, model (self w) = Some m -> m !! key_model = Some (VScalar s) ->
     fst (protected_predict batch w) = Raise AttributeError) /\
  (forall w' m m' net,
     model (self w) = Some m -> model (self w') = Some m' ->
     m !! key_model = Some (VModel net) ->
     m' !! key_model = Some (VModel net) ->
     fst (protected_predict batch w') = fst (protected_predict batch w)).
Proof.
  split; [|split; [|split]].
  - unfold protected_predict. unfold_py.
    destruct (model (self w)) as [m|]; [|reflexivity].
    cbv beta iota. destruct (m !! key_model) as [[net|s]|]; reflexivity.
  - intros m Hm Hnone. unfold protected_predict. unfold_py.
    rewrite Hm. cbv beta iota. rewrite Hnone. reflexivity.
  - intros m s Hm Hs. unfold protected_predict. unfold_py.
    rewrite Hm. cbv beta iota. rewrite Hs. reflexivity.
  - intros w' m m' net Hm Hm' Hnet Hnet'.
    rewrite (protected_predict_run w m net batch Hm Hnet).
    rewrite (protected_predict_run w' m' net batch Hm' Hnet').
    reflexivity.
Qed.

End PredictionEdges.

(** ** Fitting: failures *)

Section FittingEdges.

Context `{B : Base}.

Variables (data : Dataset) (hidden_size : Z) (activation : string).
Variables (num_layers epochs shuffle_buffer : Z) (learning_rate : R).
Variable kwargs : gmap string PyObject.

(** X8: [fit] hands on the first failure as it is and leaves the world as
    it was: the exception of [split]; else the exception met while
    transforming the validation set, building, compiling and training the
    network; else the one met while computing the validation metric.  In
    particular, with an internal batch size of 0 and everything before
    going through, [fit] raises [ZeroDivisionError] after the network has
    been built and before any training. *)
Theorem fit_propagates_first_failure (w : World) :
  (forall e,
     split data kwargs = Raise e ->
     fit data hidden_size activation num_layers epochs shuffle_buffer
       learning_rate kwargs w = (Raise e, w)) /\
  (forall training validation e,
     split data kwargs = Ok (training, validation) ->
     trained_network (self w) training validation hidden_size activation
       num_layers epochs shuffle_buffer learning_rate = Raise e ->
     fit data hidden_size activation num_layers epochs shuffle_buffer
       learning_rate kwargs w = (Raise e, w)) /\
  (forall training validation net e,
     split data kwargs = Ok (training, validation) ->
     trained_network (self w) training validation hidden_size activation
       num_layers epochs shuffle_buffer learning_rate = Ok net ->
     validation_rank_correlation (self w) net validation = Raise e ->
     fit data hidden_size activation num_layers epochs shuffle_buffer
       learning_rate kwargs w = (Raise e, w)) /\
  (forall training validation inputs targets net,
     split data kwargs = Ok (training, validation) ->
     dataset_to_oracle_x (self w) (x validation) = Ok inputs ->
     dataset_to_oracle_y (self w) (y validation) = Ok targets ->
     keras_Model (fit_architecture training hidden_size activation num_layers)
       = Ok net ->
     internal_batch_size (self w) = 0 ->
     fit data hidden_size activation num_layers epochs shuffle_buffer
       learning_rate kwargs w = (Raise ZeroDivisionError, w)).
Proof.
  rewrite fit_run. split; [|split; [|split]].
  - intros e ->. reflexivity.
  - intros training validation e -> Hraise. simpl. rewrite Hraise.
    reflexivity.
  - intros training validation net e -> Hnet Hraise. simpl.
    rewrite Hnet. simpl. rewrite Hraise. reflexivity.
  - intros training validation inputs targets net -> Hx Hy Hnet Hzero.
    simpl. unfold trained_network. rewrite Hx, Hy. simpl.
    rewrite Hnet, Hzero. reflexivity.
Qed.

(** X13: the schedule ends with the training.  Whenever [fit] returns,
    the network in the dictionary came out of one [Model.fit] call on the
    network built for the training split, run for [epochs] epochs of
    [steps] steps on the training data batched by the oracle's batch size
    and repeated [epochs] times, validated on the transformed validation
    set, with the mean-squared-error loss and Adam on a cosine schedule
    whose horizon is exactly [steps * epochs], the number of steps of that
    call. *)
Theorem fit_trains_for_the_schedule_horizon (w w' : World)
    (returned : gmap string Value) :
  fit data hidden_size activation num_layers epochs shuffle_buffer
    learning_rate kwargs w = (Ok returned, w') ->
  exists training validation inputs targets built steps batches net,
    split data kwargs = Ok (training, validation) /\
    dataset_to_oracle_x (self w) (x validation) = Ok inputs /\
    dataset_to_oracle_y (self w) (y validation) = Ok targets /\
    keras_Model (fit_architecture training hidden_size activation num_layers)
      = Ok built /\
    fit_steps (dataset_size training) (internal_batch_size (self w))
      = Ok steps /\
    create_tensorflow_dataset (self w) training
      (internal_batch_size (self w)) shuffle_buffer epochs = Ok batches /\
    Model_fit built
      {| optimizer := Adam (CosineDecay learning_rate (steps * epochs) 0%R);
         loss := "mse" |}
      batches steps epochs (inputs, targets) = Ok net /\
    returned !! key_model = Some (VModel net).
Proof.
  rewrite fit_run. intros Hrun. injection Hrun as Hreturned _.
  destruct (split data kwargs) as [[training validation]|e];
    simpl in Hreturned; [|discriminate].
  destruct (trained_network _ _ _ _ _ _ _ _ _) as [net|e] eqn:Hnet;
    simpl in Hreturned; [|discriminate].
  destruct (validation_rank_correlation _ _ _) as [rc|e];
    simpl in Hreturned; [|discriminate].
  injection Hreturned as <-. unfold trained_network in Hnet.
  destruct (dataset_to_oracle_x _ _) as [inputs|e] eqn:Hx;
    simpl in Hnet; [|discriminate].
  destruct (dataset_to_oracle_y _ _) as [targets|e] eqn:Hy;
    simpl in Hnet; [|discriminate].
  destruct (keras_Model _) as [built|e] eqn:Hbuilt;
    simpl in Hnet; [|discriminate].
  destruct (fit_steps _ _) as [steps|e] eqn:Hsteps;
    simpl in Hnet; [|discriminate].
  destruct (create_tensorflow_dataset _ _ _ _ _) as [batches|e] eqn:Hdata;
    simpl in Hnet; [|discriminate].
  exists training, validation, inputs, targets, built, steps, batches, net.
  repeat split; try assumption; try reflexivity;
    try apply model_dict_model.
Qed.

End FittingEdges.

(** ** Construction: what the constructor forwards *)

Section ConstructionEdges.

Context `{L : Library}.

Lemma repeats_keyword_spec (kwargs : gmap string PyObject) :
  repeats_keyword kwargs = true <->
  exists k, k ∈ explicit_keywords /\ is_Some (kwargs !! k).
Proof.
  unfold repeats_keyword. rewrite existsb_exists. split.
  - intros (k & Hin & Hk). exists k. split.
    + apply list_elem_of_In. exact Hin.
    + apply bool_decide_eq_true in Hk. exact Hk.
  - intros (k & Hin & Hk). exists k. split.
    + apply list_elem_of_In. exact Hin.
    + apply bool_decide_eq_true. exact Hk.
Qed.

(** X9: the constructor raises exactly when [**kwargs] names one of the
    seven keywords it writes out itself, and then it is [TypeError].
    Otherwise it forwards [noise_std] as given, [batch_size] as
    [internal_batch_size] and the remaining keywords untouched; and it asks
    for normalized designs exactly when it leaves [expect_logits] unset. *)
Theorem init_forwards_arguments (dataset : Dataset) (noise_std : Scalar)
    (batch_size : Z) (kwargs : gmap string PyObject) :
  ((exists k, k ∈ explicit_keywords /\ is_Some (kwargs !! k)) <->
   __init__ dataset noise_std batch_size kwargs = Raise TypeError) /\
  (forall e, __init__ dataset noise_std batch_size kwargs = Raise e ->
     e = TypeError) /\
  (forall kw, __init__ dataset noise_std batch_size kwargs = Ok kw ->
     kw_noise_std kw = noise_std /\
     kw_internal_batch_size kw = batch_size /\
     kw_rest kw = kwargs /\
     (kw_expect_logits kw = None <-> kw_expect_normalized_x kw = true)).
Proof.
  unfold __init__. rewrite <- repeats_keyword_spec.
  destruct (repeats_keyword kwargs); split; [|split| |split].
  - split; reflexivity.
  - intros e He. injection He as <-. reflexivity.
  - discriminate.
  - split; discriminate.
  - discriminate.
  - intros kw Hkw. injection Hkw as <-. simpl.
    repeat split; destruct (is_DiscreteDataset dataset); simpl; congruence.
Qed.

End ConstructionEdges.

(** ** The architecture and the steps *)

Section ArchitectureEdges.

Context `{L : Library}.

Lemma hidden_blocks_length (n : nat) (hidden_size : Z) (activation : string) :
  length (concat (replicate n (hidden_block hidden_size activation))) =
  (3 * n)%nat.
Proof. induction n as [|n IH]; simpl; [reflexivity | rewrite IH; lia]. Qed.

Lemma hidden_blocks_Dense (n : nat) (hidden_size : Z) (activation : string) :
  length (List.filter is_Dense
            (concat (replicate n (hidden_block hidden_size activation)))) = n.
Proof. induction n as [|n IH]; simpl; [reflexivity | rewrite IH; lia]. Qed.

Lemma hidden_blocks_no_Embedding (n : nat) (hidden_size : Z)
    (activation : string) :
  List.filter is_Embedding
    (concat (replicate n (hidden_block hidden_size activation))) = [].
Proof. induction n as [|n IH]; simpl; [reflexivity | exact IH]. Qed.

Lemma hidden_blocks_no_Flatten (n : nat) (hidden_size : Z)
    (activation : string) :
  List.filter is_Flatten
    (concat (replicate n (hidden_block hidden_size activation))) = [].
Proof. induction n as [|n IH]; simpl; [reflexivity | exact IH]. Qed.

Lemma hidden_blocks_lookup (n i : nat) (hidden_size : Z) (activation : string)
    (after : list Layer) :
  (i < n)%nat ->
  (concat (replicate n (hidden_block hidden_size activation)) ++ after)
    !! (3 * i)%nat = Some (Dense hidden_size None) /\
  (concat (replicate n (hidden_block hidden_size activation)) ++ after)
    !! (1 + 3 * i)%nat = Some LayerNormalization /\
  (concat (replicate n (hidden_block hidden_size activation)) ++ after)
    !! (2 + 3 * i)%nat = Some (Activation activation).
Proof.
  revert i. induction n as [|n IH]; intros i Hi; [lia|].
  destruct i as [|i].
  - repeat split; reflexivity.
  - destruct (IH i ltac:(lia)) as (Hd & Hn & Ha).
    replace (3 * S i)%nat with (S (S (S (3 * i)))) by lia.
    replace (1 + S (S (S (3 * i))))%nat with (S (S (S (1 + 3 * i)))) by lia.
    replace (2 + S (S (S (3 * i))))%nat with (S (S (S (2 + 3 * i)))) by lia.
    repeat split; assumption.
Qed.

Lemma hidden_blocks_then (n : nat) (hidden_size : Z) (activation : string)
    (after : list Layer) :
  (concat (replicate n (hidden_block hidden_size activation)) ++ after)
    !! (3 * n)%nat = after !! 0%nat.
Proof.
  rewrite lookup_app_r by (rewrite hidden_blocks_length; lia).
  rewrite hidden_blocks_length. f_equal. lia.
Qed.

(** X5: the layers [fit] builds, position by position.  For a
    [DiscreteDataset] the first layer is the [Embedding] of its classes
    into [hidden_size]; then comes [Flatten], the only one; then, for each
    of the [num_layers] blocks (none for a count of zero or less), a
    [Dense] of [hidden_size] units without activation, a
    [LayerNormalization] and the [Activation] asked for, in this order;
    and the last layer is [Dense(1)].  There is nothing else: the
    positions named are all there are. *)
Theorem fit_architecture_layers (training : Dataset) (hidden_size : Z)
    (activation : string) (num_layers : Z) :
  let built := layers (fit_architecture training hidden_size activation
                         num_layers) in
  let blocks := Z.to_nat num_layers in
  let front := if is_DiscreteDataset training then 1%nat else 0%nat in
  length built = (front + 1 + 3 * blocks + 1)%nat /\
  (forall num_classes is_logits,
     dataset_class training = Discrete num_classes is_logits ->
     built !! 0%nat = Some (Embedding num_classes hidden_size)) /\
  built !! front = Some Flatten /\
  (forall i, (i < blocks)%nat ->
     built !! (front + 1 + 3 * i)%nat = Some (Dense hidden_size None) /\
     built !! (front + 1 + (1 + 3 * i))%nat = Some LayerNormalization /\
     built !! (front + 1 + (2 + 3 * i))%nat = Some (Activation activation)) /\
  built !! (front + 1 + 3 * blocks)%nat = Some (Dense 1 None) /\
  length (List.filter is_Flatten built) = 1%nat /\
  length (List.filter is_Dense built) = S blocks /\
  length (List.filter is_Embedding built) = front /\
  (num_layers <= 0 ->
   built = (match dataset_class training with
            | Discrete num_classes _ => [Embedding num_classes hidden_size]
            | Continuous => []
            end) ++ [Flatten; Dense 1 None]).
Proof.
  cbv zeta. unfold fit_architecture, is_DiscreteDataset. cbn [layers].
  set (n := Z.to_nat num_layers).
  pose proof (hidden_blocks_length n hidden_size activation) as Hlen.
  pose proof (hidden_blocks_Dense n hidden_size activation) as Hdense.
  pose proof (hidden_blocks_no_Embedding n hidden_size activation) as Hemb.
  pose proof (hidden_blocks_no_Flatten n hidden_size activation) as Hflat.
  pose proof (hidden_blocks_lookup n) as Hblock.
  pose proof (hidden_blocks_then n hidden_size activation [Dense 1 None])
    as Hthen.
  set (blocks := concat (replicate n (hidden_block hidden_size activation)))
    in *.
  destruct (dataset_class training) as [|num_classes is_logits].
  - change ([] ++ [Flatten] ++ blocks ++ [Dense 1 None])
      with (Flatten :: (blocks ++ [Dense 1 None])).
    split; [simpl; rewrite length_app, Hlen; simpl; lia|].
    split; [discriminate|].
    split; [reflexivity|].
    split.
    { intros i Hi.
      destruct (Hblock i hidden_size activation [Dense 1 None] Hi)
        as (Hd & Hn & Ha).
      fold blocks in Hd, Hn, Ha.
      change (0 + 1 + 3 * i)%nat with (S (3 * i)).
      change (0 + 1 + (1 + 3 * i))%nat with (S (1 + 3 * i)).
      change (0 + 1 + (2 + 3 * i))%nat with (S (2 + 3 * i)).
      repeat split; assumption. }
    split; [change (0 + 1 + 3 * n)%nat with (S (3 * n)); exact Hthen|].
    split; [simpl; rewrite List.filter_app, Hflat; reflexivity|].
    split; [simpl; rewrite List.filter_app, length_app, Hdense; simpl; lia|].
    split; [simpl; rewrite List.filter_app, Hemb; reflexivity|].
    intros Hle. unfold blocks. replace n with 0%nat by (unfold n; lia).
    reflexivity.
  - change ([Embedding num_classes hidden_size] ++ [Flatten] ++ blocks
            ++ [Dense 1 None])
      with (Embedding num_classes hidden_size
            :: Flatten :: (blocks ++ [Dense 1 None])).
    split; [simpl; rewrite length_app, Hlen; simpl; lia|].
    split; [intros k l Hk; injection Hk as <- _; reflexivity|].
    split; [reflexivity|].
    split.
    { intros i Hi.
      destruct (Hblock i hidden_size activation [Dense 1 None] Hi)
        as (Hd & Hn & Ha).
      fold blocks in Hd, Hn, Ha.
      change (1 + 1 + 3 * i)%nat with (S (S (3 * i))).
      change (1 + 1 + (1 + 3 * i))%nat with (S (S (1 + 3 * i))).
      change (1 + 1 + (2 + 3 * i))%nat with (S (S (2 + 3 * i))).
      repeat split; assumption. }
    split; [change (1 + 1 + 3 * n)%nat with (S (S (3 * n))); exact Hthen|].
    split; [simpl; rewrite List.filter_app, Hflat; reflexivity|].
    split; [simpl; rewrite List.filter_app, length_app, Hdense; simpl; lia|].
    split; [simpl; rewrite List.filter_app, Hemb; reflexivity|].
    intros Hle. unfold blocks. replace n with 0%nat by (unfold n; lia).
    reflexivity.
Qed.

(** X12: under Keras' shape rules the network [fit] builds maps every
    design to one scalar: whatever the dataset and the arguments, the
    layers take the input shape, through a flattened axis of the product
    of the input axes (times the embedding width for a
    [DiscreteDataset]), to the output shape (1,). *)
Theorem fit_architecture_output_shape (training : Dataset) (hidden_size : Z)
    (activation : string) (num_layers : Z) :
  let built := fit_architecture training hidden_size activation num_layers in
  output_shape (layers built) (Input_shape built) = Ok [1] /\
  exists embedded hidden,
    layers built = embedded ++ Flatten :: hidden /\
    output_shape (embedded ++ [Flatten]) (Input_shape built) =
      Ok [fold_right Z.mul 1 (Input_shape built) *
          (if is_DiscreteDataset training then hidden_size else 1)].
Proof.
  cbv zeta. unfold fit_architecture. simpl layers. simpl Input_shape.
  set (shape := fit_input_shape training).
  assert (Hblocks : forall n width,
            output_shape
              (concat (replicate n (hidden_block hidden_size activation))
               ++ [Dense 1 None]) [width] = Ok [1]).
  { induction n as [|n IH]; intros width; [reflexivity|]. simpl. apply IH. }
  assert (Hmul : forall (l : list Z) (a : Z),
            fold_right Z.mul 1 (l ++ [a]) = fold_right Z.mul 1 l * a).
  { induction l as [|h t IHl]; intros a; simpl; [lia|]. rewrite IHl. lia. }
  unfold is_DiscreteDataset. split.
  - destruct (dataset_class training); simpl; apply Hblocks.
  - destruct (dataset_class training) as [|num_classes is_logits].
    + exists [], (concat (replicate (Z.to_nat num_layers)
                           (hidden_block hidden_size activation))
                  ++ [Dense 1 None]).
      split; [reflexivity|]. simpl. rewrite Z.mul_1_r. reflexivity.
    + exists [Embedding num_classes hidden_size],
             (concat (replicate (Z.to_nat num_layers)
                        (hidden_block hidden_size activation))
              ++ [Dense 1 None]).
      split; [reflexivity|]. simpl. rewrite Hmul. reflexivity.
Qed.

End ArchitectureEdges.

Section StepsEdges.

Import PyNum.

(** X6: the steps-per-epoch of [fit] cover the training split once and no
    more: for at least one and fewer than 2^53 designs and a batch size
    from 1 to 2^53 - 1, [steps] batches hold every design and [steps - 1]
    do not; there is at least one step, and exactly one when the split
    fits in a batch. *)
Theorem fit_steps_cover_the_split (dataset_size internal_batch_size : Z) :
  0 < dataset_size < 2 ^ 53 ->
  0 < internal_batch_size < 2 ^ 53 ->
  exists steps,
    fit_steps dataset_size internal_batch_size = Ok steps /\
    1 <= steps /\
    (steps - 1) * internal_batch_size < dataset_size
      <= steps * internal_batch_size /\
    (steps = 1 <-> dataset_size <= internal_batch_size).
Proof.
  intros Hsize Hbatch.
  exists (exact_ceiling dataset_size internal_batch_size).
  split; [apply fit_steps_exact; lia|].
  unfold exact_ceiling.
  pose proof (Z.div_mod (- dataset_size) internal_batch_size ltac:(lia)) as Hdiv.
  pose proof (Z.mod_pos_bound (- dataset_size) internal_batch_size
                ltac:(lia)) as Hmod.
  set (q := - dataset_size / internal_batch_size) in *.
  set (r := (- dataset_size) mod internal_batch_size) in *.
  repeat split; nia.
Qed.

End StepsEdges.

(** ** The further properties at work on the small instance *)

Lemma load_missing_entry_witness :
  @load_model_from_zip Toy.library (Toy.world None) =
  (Raise KeyError, Toy.world None).
Proof.
  apply (proj1 (@load_missing_entry Toy.library (Toy.world None))).
  intros bytes Hin. inversion Hin.
Defined.


Lemma load_of_buffered_image_witness :
  @load_model_from_zip Toy.library
    (set_zip [("rank_correlation.npy"%string, [x01]);
              ("fully_connected.h5"%string, [x01; x02])] (Toy.world None)) =
  (Raise OSError,
   set_zip [("rank_correlation.npy"%string, [x01]);
            ("fully_connected.h5"%string, [x01; x02])] (Toy.world None)).
Proof.
  apply (@load_of_buffered_image Toy.library _ [x01] 1 [x01; x02]);
    try reflexivity.
  simpl. lia.
Defined.

Lemma only_two_keys_persist_witness :
  @save_model_to_zip Toy.library
    (<[("epochs"%string) := @VScalar Toy.library 5]> Toy.fitted)
    (Toy.world None) =
  @save_model_to_zip Toy.library Toy.fitted (Toy.world None).
Proof.
  apply (proj1 (@only_two_keys_persist Toy.library (Toy.world None)));
    reflexivity.
Defined.

Lemma protected_predict_never_writes_witness :
  fst (@protected_predict Toy.library [1; 2; 3] (Toy.world (Some ∅))) =
  Raise KeyError.
Proof.
  destruct (@protected_predict_never_writes Toy.library
              (Toy.world (Some ∅)) [1; 2; 3]) as (_ & Hmissing & _).
  apply (Hmissing ∅); reflexivity.
Defined.

Lemma fit_propagates_first_failure_witness :
  fst (@fit Toy.library Toy.base Toy.continuous 512 "relu" 2 5 5000
         (1 / 1000)%R ∅
         {| self :=
              {| dataset := Toy.continuous;
                 noise_std := 0;
                 is_batched := true;
                 internal_batch_size := 0;
                 internal_measurements := 1;
                 expect_normalized_y := true;
                 expect_normalized_x := true;
                 expect_logits := None;
                 model := None |};
            tmp := ∅;
            zip_archive := [] |}) =
  Raise ZeroDivisionError.
Proof.
  match goal with
  | |- fst (fit _ _ _ _ _ _ _ _ ?w) = _ =>
      destruct (@fit_propagates_first_failure Toy.library Toy.base
                  Toy.continuous 512 "relu" 2 5 5000 (1 / 1000)%R ∅ w)
        as (_ & _ & _ & Hzero)
  end.
  rewrite (Hzero Toy.continuous Toy.continuous [1; 2; 3] [[1]; [2]; [3]] 0);
    reflexivity.
Defined.

Lemma init_forwards_arguments_witness :
  @__init__ Toy.library Toy.continuous 0 32 {[ "is_batched"%string := tt ]} =
  Raise TypeError.
Proof.
  apply (proj1 (@init_forwards_arguments Toy.library Toy.continuous 0 32
                  {[ "is_batched"%string := tt ]})).
  exists "is_batched"%string. split.
  - apply list_elem_of_In. right. left. reflexivity.
  - exists tt. reflexivity.
Defined.

Lemma fit_steps_cover_the_split_witness :
  exists steps,
    fit_steps 100 32 = Ok steps /\
    1 <= steps /\
    (steps - 1) * 32 < 100 <= steps * 32 /\
    (steps = 1 <-> 100 <= 32).
Proof.
  apply (fit_steps_cover_the_split 100 32); split; reflexivity.
Defined.

Lemma fit_trains_for_the_schedule_horizon_witness :
  exists training validation inputs targets built steps batches net,
    @split Toy.library Toy.base Toy.continuous ∅ = Ok (training, validation) /\
    @dataset_to_oracle_x Toy.library Toy.base (self (Toy.world None))
      (x validation) = Ok inputs /\
    @dataset_to_oracle_y Toy.library Toy.base (self (Toy.world None))
      (y validation) = Ok targets /\
    @keras_Model Toy.library (fit_architecture training 512 "relu" 2)
      = Ok built /\
    fit_steps (dataset_size training)
      (internal_batch_size (self (Toy.world None))) = Ok steps /\
    @create_tensorflow_dataset Toy.library Toy.base (self (Toy.world None))
      training (internal_batch_size (self (Toy.world None))) 5000 5
      = Ok batches /\
    @Model_fit Toy.library built
      {| optimizer := Adam (CosineDecay (1 / 1000)%R (steps * 5) 0%R);
         loss := "mse" |}
      batches steps 5 (inputs, targets) = Ok net /\
    @model_dict Toy.library 1 1 !! key_model = Some (VModel net).
Proof.
  apply (@fit_trains_for_the_schedule_horizon Toy.library Toy.base
           Toy.continuous 512 "relu" 2 5 5000 (1 / 1000)%R ∅
           (Toy.world None) (Toy.world None) (@model_dict Toy.library 1 1)).
  reflexivity.
Defined.

(** The failing round trip: with the 8192-byte buffer the dictionary
    [Toy.fitted], which predicts before the save, is saved and cannot be
    loaded back. *)
Lemma save_load_loses_buffered_image_witness :
  fst (@protected_predict Toy.library_wide_buffer [1; 2; 3]
         (set_model Toy.fitted_wide_buffer Toy.world_wide_buffer)) =
    Ok [[3]; [6]; [9]] /\
  exists saved,
    @save_model_to_zip Toy.library_wide_buffer Toy.fitted_wide_buffer
      Toy.world_wide_buffer = (Ok tt, saved) /\
    @load_model_from_zip Toy.library_wide_buffer saved = (Raise OSError, saved).
Proof.
  split; [reflexivity|].
  apply (@save_load_loses_buffered_image Toy.library_wide_buffer
           Toy.fitted_wide_buffer Toy.world_wide_buffer 3 1
           (Toy.hdf5_signature ++ [x03]));
    try reflexivity.
  apply Nat.leb_le. reflexivity.
Defined.
